(** * PubMed literature search: a shallow embedding of [pubmed_search.py]

    The tool is three methods of the class [Tools]:
    [search_pubmed] (the public entry point, a [try]/[except] around the
    other two), [_fetch_pubmed_data] (two HTTP GET requests and the field
    extraction) and [_format_results] (the markdown report).

    Python values that come out of [response.json()] are modelled by the
    inductive type [json]; exceptions by [exn]; a computation that may
    raise and that issues HTTP requests by the monad [M], which threads
    the trace of the requests issued so far and keeps it when an exception
    is raised. *)

From Stdlib Require Import List String Ascii ZArith Bool Lia.
From Stdlib Require Import DecimalString.
From Stdlib Require Import Floats.SpecFloat.
Import ListNotations.

Local Open Scope string_scope.
Local Open Scope Z_scope.

(** ** Values *)

(** What [json.loads] builds: [None], [bool], [int], [float], [str],
    [list] and [dict] with [str] keys.  A [dict] is the list of its items
    in insertion order; [json.loads] never builds two items with one key,
    and lookup takes the first binding.  A character of a [str] is an
    [ascii]. *)
#[warnings="-register-all"]
Inductive json : Type :=
| JNull
| JBool (b : bool)
| JInt (z : Z)
| JFloat (f : spec_float)
| JStr (s : string)
| JArr (items : list json)
| JObj (fields : list (string * json)).

(** A Python [dict] with [str] keys, the shape of the records that
    [_fetch_pubmed_data] builds and [_format_results] reads. *)
Definition pydict : Type := list (string * json).

(** ** Exceptions *)

(** The reason of a [TypeError], kept so that the text of the message may
    depend on it. *)
Inductive type_error : Type :=
| NotSubscriptable (v : json)
| BadIndex (v key : json)
| Unhashable (key : json)
| NotIterable (v : json)
| NotContainer (v : json)
| JoinItem (pos : nat) (v : json).

(** The subclasses of [Exception] that the two helpers can raise.
    [ConnectionError] stands for every exception [requests.get] raises
    itself (connection refused, timeout, invalid URL, ...), with the text
    it carries. *)
Inductive exn : Type :=
| KeyError (key : json)
| IndexError (v key : json)
| TypeError (why : type_error)
| AttributeError (v : json) (attr : string)
| ConnectionError (text : string)
| HTTPError (status : Z)
| JSONDecodeError.

Inductive outcome (A : Type) : Type :=
| Return (a : A)
| Raise (e : exn).
Arguments Return {A} a.
Arguments Raise {A} e.

(** ** The network *)

Inductive param : Type :=
| PStr (s : string)
| PInt (z : Z).

(** One call [requests.get(url, params=params)]. *)
Record request : Type := mkRequest {
  req_url : string;
  req_params : list (string * param)
}.

(** A response: its status code and its body as [response.json()] decodes
    it, [None] when the body is not JSON. *)
Record response : Type := mkResponse {
  status_code : Z;
  body : option json
}.

Inductive http_result : Type :=
| Failed (text : string)
| Responded (r : response).

(** The remote endpoints: what each request meets.  The two requests of
    one invocation differ in their URL, so a function of the request
    covers every joint behaviour of the two endpoints. *)
Definition network : Type := request -> http_result.

(** ** The monad: request trace and exceptions *)

Definition trace : Type := list request.

Definition M (A : Type) : Type := trace -> outcome A * trace.

Definition ret {A} (a : A) : M A := fun t => (Return a, t).

Definition raise {A} (e : exn) : M A := fun t => (Raise e, t).

Definition bind {A B} (m : M A) (k : A -> M B) : M B :=
  fun t =>
    match m t with
    | (Return a, t') => k a t'
    | (Raise e, t') => (Raise e, t')
    end.

(** A computation without requests. *)
Definition lift {A} (o : outcome A) : M A := fun t => (o, t).

(** [try: m except Exception as e: h e]. *)
Definition try_except {A} (m : M A) (h : exn -> M A) : M A :=
  fun t =>
    match m t with
    | (Return a, t') => (Return a, t')
    | (Raise e, t') => h e t'
    end.

Declare Scope py_scope.
Delimit Scope py_scope with py.
Notation "x <- m ;; k" := (bind m (fun x => k))
  (at level 61, m at next level, right associativity) : py_scope.
Notation "m ;;; k" := (bind m (fun _ => k))
  (at level 61, right associativity) : py_scope.

(** The pure fragment: [outcome] alone. *)
Definition obind {A B} (o : outcome A) (k : A -> outcome B) : outcome B :=
  match o with
  | Return a => k a
  | Raise e => Raise e
  end.

Notation "x <~ o ;; k" := (obind o (fun x => k))
  (at level 61, o at next level, right associativity) : py_scope.

Local Open Scope py_scope.

(** ** Python's built-in operations on [json] values *)

(** Truth value testing: [None], [False], zero, and every empty string,
    list or dict are false. *)
Definition py_truthy (v : json) : bool :=
  match v with
  | JNull => false
  | JBool b => b
  | JInt z => negb (z =? 0)
  | JFloat (S754_zero _) => false
  | JFloat _ => true
  | JStr "" => false
  | JStr _ => true
  | JArr [] => false
  | JArr _ => true
  | JObj [] => false
  | JObj _ => true
  end.

(** [d.get(k)] on a dict: the first binding of [k]. *)
Fixpoint lookup (k : string) (d : pydict) : option json :=
  match d with
  | [] => None
  | (k', v) :: d' => if String.eqb k k' then Some v else lookup k d'
  end.

(** [d.get(k, default)]. *)
Definition dict_get (d : pydict) (k : string) (default : json) : json :=
  match lookup k d with
  | Some v => v
  | None => default
  end.

(** Position [i] of a sequence of length [n] the way Python resolves it:
    a negative index counts from the end. *)
Definition resolve_index (i : Z) (n : nat) : option nat :=
  let j := if i <? 0 then i + Z.of_nat n else i in
  if (0 <=? j) && (j <? Z.of_nat n) then Some (Z.to_nat j) else None.

(** The characters of a [str], each a [str] of length one. *)
Definition chars (s : string) : list json :=
  map (fun c => JStr (String c EmptyString)) (list_ascii_of_string s).

(** [l[i]] on a sequence; [err] is raised when [i] is out of range. *)
Definition at_index (l : list json) (i : Z) (err : exn) : outcome json :=
  match resolve_index i (List.length l) with
  | Some n =>
      match nth_error l n with
      | Some x => Return x
      | None => Raise err
      end
  | None => Raise err
  end.

(** [v[key]]: a dict is looked up by key, a list or a str by an integer
    position ([bool] is a subclass of [int]). *)
Definition py_getitem (v key : json) : outcome json :=
  match v with
  | JObj d =>
      match key with
      | JStr k =>
          match lookup k d with
          | Some x => Return x
          | None => Raise (KeyError key)
          end
      | JArr _ | JObj _ => Raise (TypeError (Unhashable key))
      | _ => Raise (KeyError key)
      end
  | JArr _ | JStr _ =>
      let l := match v with JStr s => chars s | JArr l => l | _ => [] end in
      match key with
      | JInt i => at_index l i (IndexError v key)
      | JBool b => at_index l (if b then 1 else 0) (IndexError v key)
      | _ => Raise (TypeError (BadIndex v key))
      end
  | _ => Raise (TypeError (NotSubscriptable v))
  end.

(** [v.get(k, default)]: only a dict has the method. *)
Definition py_get (v : json) (k : string) (default : json) : outcome json :=
  match v with
  | JObj d => Return (dict_get d k default)
  | _ => Raise (AttributeError v "get")
  end.

(** [v == s] for a [str] [s]. *)
Definition py_eq_str (v : json) (s : string) : bool :=
  match v with
  | JStr s' => String.eqb s' s
  | _ => false
  end.

(** Whether [sub] occurs in [s]. *)
Fixpoint occurs (sub s : string) : bool :=
  String.prefix sub s ||
  match s with
  | EmptyString => false
  | String _ s' => occurs sub s'
  end.

(** [k in v] for a [str] [k]: a key of a dict, an element of a list, a
    substring of a str. *)
Definition py_contains (k : string) (v : json) : outcome bool :=
  match v with
  | JObj d => Return (match lookup k d with Some _ => true | None => false end)
  | JArr l => Return (existsb (fun x => py_eq_str x k) l)
  | JStr s => Return (occurs k s)
  | _ => Raise (TypeError (NotContainer v))
  end.

(** [iter(v)] run to the end: the elements of a list, the characters of a
    str, the keys of a dict. *)
Definition py_iter (v : json) : outcome (list json) :=
  match v with
  | JArr l => Return l
  | JStr s => Return (chars s)
  | JObj d => Return (map (fun kv => JStr (fst kv)) d)
  | _ => Raise (TypeError (NotIterable v))
  end.

(** The check [str.join] makes on the items it has collected: the first
    item that is not a [str] raises, with its position. *)
Fixpoint str_items (pos : nat) (l : list json) : outcome (list string) :=
  match l with
  | [] => Return []
  | JStr s :: l' => ss <~ str_items (S pos) l' ;; Return (s :: ss)
  | v :: _ => Raise (TypeError (JoinItem pos v))
  end.

(** [sep.join(l)] on collected items. *)
Definition join_items (sep : string) (l : list json) : outcome string :=
  ss <~ str_items 0 l ;; Return (String.concat sep ss).

(** [sep.join(v)]. *)
Definition py_join (sep : string) (v : json) : outcome string :=
  l <~ py_iter v ;; join_items sep l.

(** [str(n)] for a length or an ordinal. *)
Definition str_of_nat (n : nat) : string :=
  NilEmpty.string_of_uint (Nat.to_uint n).

Definition nl : string := String "010"%char EmptyString.

(** ** The program *)

Section Tools.

(** [str(e)], the text of an exception: the interpreter's and the
    [requests] library's wording. *)
Variable exc_str : exn -> string.

(** [str(v)] for a value that is not a [str] (numerals, [None], [True],
    the [repr] of a list or a dict). *)
Variable render : json -> string.

(** The remote endpoints. *)
Variable net : network.

(** What an f-string puts for [{v}]. *)
Definition py_str (v : json) : string :=
  match v with
  | JStr s => s
  | _ => render v
  end.

(** [requests.get(url, params=params)]: the request is recorded, then it
    raises or gives the response. *)
Definition requests_get (url : string) (params : list (string * param))
  : M response :=
  fun t =>
    let req := mkRequest url params in
    match net req with
    | Failed text => (Raise (ConnectionError text), (t ++ [req])%list)
    | Responded r => (Return r, (t ++ [req])%list)
    end.

(** [response.raise_for_status()]: statuses 400 to 599 raise. *)
Definition raise_for_status (r : response) : outcome unit :=
  if (400 <=? status_code r) && (status_code r <? 600)
  then Raise (HTTPError (status_code r))
  else Return tt.

(** [response.json()]. *)
Definition response_json (r : response) : outcome json :=
  match body r with
  | Some v => Return v
  | None => Raise JSONDecodeError
  end.

Definition base_url : string :=
  "https://eutils.ncbi.nlm.nih.gov/entrez/eutils".

(** The generator
    [author["name"] for author in ... if "name" in author and author["name"]],
    run to its end as [str.join] does before it looks at the items. *)
Fixpoint author_names (authors : list json) : outcome (list json) :=
  match authors with
  | [] => Return []
  | author :: rest =>
      has_name <~ py_contains "name" author ;;
      keep <~ (if has_name : bool
               then name <~ py_getitem author (JStr "name") ;;
                    Return (py_truthy name)
               else Return false) ;;
      if keep : bool
      then name <~ py_getitem author (JStr "name") ;;
           names <~ author_names rest ;;
           Return (name :: names)
      else author_names rest
  end.

(** [next((id_obj["value"] for id_obj in ... if id_obj["idtype"] == "doi"), "")]:
    the generator is advanced to its first item only. *)
Fixpoint next_doi (articleids : list json) : outcome json :=
  match articleids with
  | [] => Return (JStr "")
  | id_obj :: rest =>
      idtype <~ py_getitem id_obj (JStr "idtype") ;;
      if py_eq_str idtype "doi"
      then py_getitem id_obj (JStr "value")
      else next_doi rest
  end.

(** The value of the key ["authors"] of a record. *)
Definition authors_of (article : json) : outcome string :=
  has_authors <~ py_contains "authors" article ;;
  if has_authors : bool
  then authors <~ py_get article "authors" (JArr []) ;;
       items <~ py_iter authors ;;
       names <~ author_names items ;;
       join_items ", " names
  else Return "".

(** The value of the key ["doi"] of a record. *)
Definition doi_of (article : json) : outcome json :=
  articleids <~ py_get article "articleids" (JArr []) ;;
  items <~ py_iter articleids ;;
  next_doi items.

(** The body of the loop [for article_id in article_ids]: the record
    appended to [results]. *)
Definition record_of (summaries article_id : json) : outcome pydict :=
  article <~ py_getitem summaries article_id ;;
  title <~ py_getitem article (JStr "title") ;;
  authors <~ authors_of article ;;
  pubdate <~ py_get article "pubdate" (JStr "") ;;
  journal <~ py_get article "fulljournalname" (JStr "") ;;
  doi <~ doi_of article ;;
  Return [ ("title", title);
           ("authors", JStr authors);
           ("pubdate", pubdate);
           ("journal", journal);
           ("doi", doi);
           ("url", JStr ("https://pubmed.ncbi.nlm.nih.gov/"
                           ++ py_str article_id ++ "/")) ].

(** The loop [for article_id in article_ids: ... results.append(...)]. *)
Fixpoint for_article_ids (summaries : json) (article_ids : list json)
    (results : list pydict) : outcome (list pydict) :=
  match article_ids with
  | [] => Return results
  | article_id :: rest =>
      r <~ record_of summaries article_id ;;
      for_article_ids summaries rest (results ++ [r])%list
  end.

Definition search_params (query : string) (max_results : Z)
  : list (string * param) :=
  [ ("db", PStr "pubmed"); ("term", PStr query);
    ("retmode", PStr "json"); ("retmax", PInt max_results) ].

Definition fetch_params (ids : string) : list (string * param) :=
  [ ("db", PStr "pubmed"); ("id", PStr ids); ("retmode", PStr "json") ].

Definition _fetch_pubmed_data (query : string) (max_results : Z)
  : M (list pydict) :=
  let search_url := base_url ++ "/esearch.fcgi" in
  let params := search_params query max_results in
  response <- requests_get search_url params ;;
  lift (raise_for_status response) ;;;
  search_data <- lift (response_json response) ;;
  esearchresult <- lift (py_getitem search_data (JStr "esearchresult")) ;;
  article_ids <- lift (py_getitem esearchresult (JStr "idlist")) ;;
  if negb (py_truthy article_ids) then ret []
  else
    let fetch_url := base_url ++ "/esummary.fcgi" in
    ids <- lift (py_join "," article_ids) ;;
    let params := fetch_params ids in
    response <- requests_get fetch_url params ;;
    lift (raise_for_status response) ;;;
    data <- lift (response_json response) ;;
    summaries <- lift (py_getitem data (JStr "result")) ;;
    items <- lift (py_iter article_ids) ;;
    lift (for_article_ids summaries items []).

(** One turn of the loop [for i, article in enumerate(articles)]: what
    [markdown] is after it. *)
Definition format_article (i : nat) (article : pydict) (markdown : string)
  : outcome string :=
  let markdown :=
    markdown ++ "## " ++ str_of_nat (i + 1) ++ ". "
      ++ py_str (dict_get article "title" (JStr "Untitled")) ++ nl ++ nl in
  markdown <~
    (if py_truthy (dict_get article "authors" JNull)
     then authors <~ py_getitem (JObj article) (JStr "authors") ;;
          Return (markdown ++ "**Authors:** " ++ py_str authors ++ nl ++ nl)
     else Return markdown) ;;
  let journal_info : list json := [] in
  journal_info <~
    (if py_truthy (dict_get article "journal" JNull)
     then journal <~ py_getitem (JObj article) (JStr "journal") ;;
          Return (journal_info ++ [journal])%list
     else Return journal_info) ;;
  journal_info <~
    (if py_truthy (dict_get article "pubdate" JNull)
     then pubdate <~ py_getitem (JObj article) (JStr "pubdate") ;;
          Return (journal_info ++ [pubdate])%list
     else Return journal_info) ;;
  markdown <~
    (if py_truthy (JArr journal_info)
     then joined <~ join_items " - " journal_info ;;
          Return (markdown ++ "**Published in:** " ++ joined ++ nl ++ nl)
     else Return markdown) ;;
  markdown <~
    (if py_truthy (dict_get article "doi" JNull)
     then doi <~ py_getitem (JObj article) (JStr "doi") ;;
          Return (markdown ++ "**DOI:** " ++ py_str doi ++ nl ++ nl)
     else Return markdown) ;;
  let markdown :=
    markdown ++ "**PubMed Link:** [View Article]("
      ++ py_str (dict_get article "url" (JStr "")) ++ ")" ++ nl ++ nl in
  Return (markdown ++ "---" ++ nl ++ nl).

(** The loop over [enumerate(articles)], from index [i]. *)
Fixpoint for_articles (i : nat) (articles : list pydict) (markdown : string)
  : outcome string :=
  match articles with
  | [] => Return markdown
  | article :: rest =>
      markdown <~ format_article i article markdown ;;
      for_articles (S i) rest markdown
  end.

Definition _format_results (query : string) (articles : list pydict)
  : outcome string :=
  let markdown :=
    "# PubMed Search Results" ++ nl ++ nl
      ++ "**Query:** " ++ query ++ nl ++ nl
      ++ "**Found:** " ++ str_of_nat (List.length articles) ++ " results"
      ++ nl ++ nl in
  for_articles 0 articles markdown.

(** The body of the [try] block of [search_pubmed]. *)
Definition search_pubmed_try (query : string) (max_results : Z) : M string :=
  articles <- _fetch_pubmed_data query max_results ;;
  match articles with
  | [] => ret ("No PubMed results found for query: '" ++ query ++ "'.")
  | _ => lift (_format_results query articles)
  end.

Definition search_pubmed (query : string) (max_results : Z) : M string :=
  try_except (search_pubmed_try query max_results)
    (fun e => ret ("Error in PubMed search: " ++ exc_str e)).

End Tools.

(** ** What the network answers *)

(** The two requests of one invocation. *)
Definition locator_request (query : string) (max_results : Z) : request :=
  mkRequest (base_url ++ "/esearch.fcgi") (search_params query max_results).

Definition summarizer_request (ids : string) : request :=
  mkRequest (base_url ++ "/esummary.fcgi") (fetch_params ids).

(** What a request yields once the status is checked and the body is
    decoded. *)
Definition decoded (net : network) (req : request) : outcome json :=
  match net req with
  | Failed text => Raise (ConnectionError text)
  | Responded r => _ <~ raise_for_status r ;; response_json r
  end.

(** The identifier list the locator answers with:
    [search_data["esearchresult"]["idlist"]]. *)
Definition locator_idlist (net : network) (query : string) (max_results : Z)
  : outcome json :=
  search_data <~ decoded net (locator_request query max_results) ;;
  esearchresult <~ py_getitem search_data (JStr "esearchresult") ;;
  py_getitem esearchresult (JStr "idlist").

(** The object keyed by identifier the summarizer answers with:
    [response.json()["result"]]. *)
Definition summarizer_result (net : network) (ids : string) : outcome json :=
  data <~ decoded net (summarizer_request ids) ;;
  py_getitem data (JStr "result").

(** ** The error taxonomy of the specification *)

Inductive error_kind : Type :=
| RemoteError
| MalformedResponseError.

(** A transport failure or a non-success status is a [RemoteError]; a
    body that is not JSON, or that lacks a field or has one of another
    shape, is a [MalformedResponseError]. *)
Definition error_kind_of (e : exn) : error_kind :=
  match e with
  | ConnectionError _ | HTTPError _ => RemoteError
  | _ => MalformedResponseError
  end.

(** A computation all of whose exceptions are [MalformedResponseError]s. *)
Definition malformed_only {A} (o : outcome A) : Prop :=
  forall e, o = Raise e -> error_kind_of e = MalformedResponseError.

(** ** Shapes of the summarizer's records *)

Definition has_key (k : string) (d : pydict) : bool :=
  match lookup k d with
  | Some _ => true
  | None => false
  end.

(** An author entry whose name, if it has one, is a [str] or is false. *)
Definition author_ok (author : json) : bool :=
  match author with
  | JObj f =>
      match lookup "name" f with
      | None | Some (JStr _) => true
      | Some name => negb (py_truthy name)
      end
  | _ => false
  end.

(** An identifier entry with a type tag and a value. *)
Definition articleid_ok (id_obj : json) : bool :=
  match id_obj with
  | JObj f => has_key "idtype" f && has_key "value" f
  | _ => false
  end.

(** A record with a title whose author and identifier lists, where it has
    them, are lists of such entries. *)
Definition well_formed_summary (article : json) : bool :=
  match article with
  | JObj d =>
      has_key "title" d
      && match lookup "authors" d with
         | None => true
         | Some (JArr l) => forallb author_ok l
         | Some _ => false
         end
      && match lookup "articleids" d with
         | None => true
         | Some (JArr l) => forallb articleid_ok l
         | Some _ => false
         end
  | _ => false
  end.

(** An identifier entry whose type tag equals ["doi"]. *)
Definition is_doi_entry (id_obj : json) : bool :=
  match id_obj with
  | JObj f =>
      match lookup "idtype" f with
      | Some idtype => py_eq_str idtype "doi"
      | None => false
      end
  | _ => false
  end.

(** An identifier entry with a type tag other than ["doi"]. *)
Definition other_id_entry (id_obj : json) : bool :=
  match id_obj with
  | JObj f =>
      match lookup "idtype" f with
      | Some idtype => negb (py_eq_str idtype "doi")
      | None => false
      end
  | _ => false
  end.

Definition is_object (v : json) : bool :=
  match v with
  | JObj _ => true
  | _ => false
  end.

(** An identifier entry without the key ["idtype"]: an object that lacks
    it, or a value that is no object at all. *)
Definition lacks_idtype (id_obj : json) : bool :=
  match id_obj with
  | JObj f => negb (has_key "idtype" f)
  | _ => true
  end.

(** The URL of the article page of an identifier. *)
Definition article_url (id : string) : string :=
  "https://pubmed.ncbi.nlm.nih.gov/" ++ id ++ "/".

(** ** The layout of the report, as the specification words it *)

(** A field of a Record as text: the empty string when it is absent. *)
Definition text_field (k : string) (r : pydict) : string :=
  match lookup k r with
  | Some (JStr s) => s
  | _ => ""
  end.

(** The title, with its placeholder. *)
Definition title_field (r : pydict) : string :=
  match lookup "title" r with
  | Some (JStr s) => s
  | _ => "Untitled"
  end.

Definition nonempty (s : string) : bool := negb (String.eqb s "").

(** A line that is present iff its value is non-empty. *)
Definition optional_line (label value : string) : list string :=
  if nonempty value then [label ++ value] else [].

(** The line that joins whichever of journal and date are non-empty. *)
Definition published_line (journal pubdate : string) : list string :=
  match filter nonempty [journal; pubdate] with
  | [] => []
  | parts => ["**Published in:** " ++ String.concat " - " parts]
  end.

(** The link line, present whatever the URL. *)
Definition link_line (url : string) : string :=
  "**PubMed Link:** [View Article](" ++ url ++ ")".

(** The lines of the section of one Record. *)
Definition section_lines (ordinal : nat) (r : pydict) : list string :=
  ("## " ++ str_of_nat ordinal ++ ". " ++ title_field r)
  :: (optional_line "**Authors:** " (text_field "authors" r)
      ++ published_line (text_field "journal" r) (text_field "pubdate" r)
      ++ optional_line "**DOI:** " (text_field "doi" r)
      ++ [link_line (text_field "url" r); "---"])%list.

(** The sections of the Records in their order, numbered from [ordinal]. *)
Fixpoint sections (ordinal : nat) (rs : list pydict) : list string :=
  match rs with
  | [] => []
  | r :: rs' => (section_lines ordinal r ++ sections (S ordinal) rs')%list
  end.

Definition header_lines (query : string) (count : nat) : list string :=
  [ "# PubMed Search Results";
    "**Query:** " ++ query;
    "**Found:** " ++ str_of_nat count ++ " results" ].

(** Every line is followed by a blank line. *)
Fixpoint paragraphs (lines : list string) : string :=
  match lines with
  | [] => ""
  | line :: rest => line ++ nl ++ nl ++ paragraphs rest
  end.

Definition report (query : string) (rs : list pydict) : string :=
  paragraphs (header_lines query (List.length rs) ++ sections 1 rs)%list.

(** A Record in the sense of the specification: every field it has is a
    string. *)
Definition str_valued (r : pydict) : bool :=
  forallb (fun kv => match snd kv with JStr _ => true | _ => false end) r.

(** Whether some line begins with [label]. *)
Definition has_line (label : string) (lines : list string) : bool :=
  existsb (String.prefix label) lines.

(** ** Shapes used by the further properties *)

Definition is_str (v : json) : bool :=
  match v with
  | JStr _ => true
  | _ => false
  end.

(** The name of an author entry as text: empty when it has none. *)
Definition author_name (author : json) : string :=
  match author with
  | JObj f => text_field "name" f
  | _ => ""
  end.

(** A field that is absent or a string. *)
Definition str_or_absent (k : string) (d : pydict) : bool :=
  match lookup k d with
  | None | Some (JStr _) => true
  | Some _ => false
  end.

(** An identifier entry with a type tag and a string value. *)
Definition textual_articleid (id_obj : json) : bool :=
  match id_obj with
  | JObj f =>
      has_key "idtype" f
      && match lookup "value" f with
         | Some (JStr _) => true
         | _ => false
         end
  | _ => false
  end.

(** A well-formed record all of whose printed fields are strings. *)
Definition textual_summary (article : json) : bool :=
  match article with
  | JObj d =>
      match lookup "title" d with
      | Some (JStr _) => true
      | _ => false
      end
      && match lookup "authors" d with
         | None => true
         | Some (JArr l) => forallb author_ok l
         | Some _ => false
         end
      && str_or_absent "pubdate" d
      && str_or_absent "fulljournalname" d
      && match lookup "articleids" d with
         | None => true
         | Some (JArr l) => forallb textual_articleid l
         | Some _ => false
         end
  | _ => false
  end.

(** The request [req] failed with [e]: a transport failure with the text
    of [e], or a response whose status, from 400 to 599, is the one of
    [e]. *)
Definition failed_with (net : network) (req : request) (e : exn) : Prop :=
  (exists text, e = ConnectionError text /\ net req = Failed text) \/
  (exists r, e = HTTPError (status_code r) /\ net req = Responded r /\
             400 <= status_code r <= 599).

(** ** Fixtures *)

(** A network that answers the locator request with [locator] and every
    other request with [summarizer]. *)
Definition serve (locator summarizer : http_result) : network :=
  fun req =>
    if String.eqb (req_url req) (base_url ++ "/esearch.fcgi")
    then locator
    else summarizer.

(** A response with status 200 and a JSON body. *)
Definition ok_json (v : json) : http_result :=
  Responded (mkResponse 200 (Some v)).

(** The locator's body for a list of identifiers. *)
Definition locator_body (idlist : json) : json :=
  JObj [("esearchresult", JObj [("idlist", idlist)])].

(** The summarizer's body for the object keyed by identifier. *)
Definition summarizer_body (result : json) : json :=
  JObj [("result", result)].

(** The text of an exception in the examples: the text carried by an
    exception of [requests], the quoted key of a [KeyError] on a plain
    key, the class name otherwise. *)
Definition text_of_exn (e : exn) : string :=
  match e with
  | KeyError (JStr k) => "'" ++ k ++ "'"
  | KeyError _ => "KeyError"
  | IndexError _ _ => "IndexError"
  | TypeError _ => "TypeError"
  | AttributeError _ _ => "AttributeError"
  | ConnectionError text => text
  | HTTPError _ => "HTTPError"
  | JSONDecodeError => "JSONDecodeError"
  end.

(** [str] of a value that is not a [str] in the examples. *)
Definition text_of_value (v : json) : string :=
  match v with
  | JNull => "None"
  | JBool true => "True"
  | JBool false => "False"
  | JInt z => NilEmpty.string_of_int (Z.to_int z)
  | JStr s => s
  | _ => "..."
  end.

(** The scenario of the specification: two identifiers, the first record
    with every field, the second with a title only. *)
Definition crispr_ids : json := JArr [JStr "111"; JStr "222"].

Definition crispr_summaries : json :=
  JObj [ ("111", JObj [ ("title", JStr "Gene Editing Advances");
                        ("authors", JArr [JObj [("name", JStr "A. Smith")]]);
                        ("pubdate", JStr "2023");
                        ("fulljournalname", JStr "Nature");
                        ("articleids",
                         JArr [JObj [("idtype", JStr "doi");
                                     ("value", JStr "10.1/x")]]) ]);
         ("222", JObj [ ("title", JStr "CRISPR Review");
                        ("authors", JArr []);
                        ("pubdate", JStr "");
                        ("fulljournalname", JStr "");
                        ("articleids", JArr []) ]) ].

Definition crispr_net : network :=
  serve (ok_json (locator_body crispr_ids))
        (ok_json (summarizer_body crispr_summaries)).

(** Both endpoints unreachable. *)
Definition down_net : network := serve (Failed "boom") (Failed "boom").

(** A locator without matches; the summarizer would fail. *)
Definition empty_net : network :=
  serve (ok_json (locator_body (JArr []))) (Failed "boom").

(** One identifier, whose record has a title and one identifier entry
    without a type tag. *)
Definition untagged_article : json :=
  JObj [ ("title", JStr "T");
         ("articleids", JArr [JObj [("value", JStr "x")]]) ].

Definition untagged_net : network :=
  serve (ok_json (locator_body (JArr [JStr "1"])))
        (ok_json (summarizer_body (JObj [("1", untagged_article)]))).

(** One identifier, whose record has no title. *)
Definition untitled_net : network :=
  serve (ok_json (locator_body (JArr [JStr "1"])))
        (ok_json (summarizer_body (JObj [("1", JObj [("authors", JArr [])])]))).

(** The locator names an identifier that the summarizer leaves out. *)
Definition partial_net : network :=
  serve (ok_json (locator_body (JArr [JStr "111"; JStr "333"])))
        (ok_json (summarizer_body crispr_summaries)).

(** The Records of the scenario. *)
Definition crispr_records : list pydict :=
  [ [ ("title", JStr "Gene Editing Advances"); ("authors", JStr "A. Smith");
      ("pubdate", JStr "2023"); ("journal", JStr "Nature");
      ("doi", JStr "10.1/x");
      ("url", JStr "https://pubmed.ncbi.nlm.nih.gov/111/") ];
    [ ("title", JStr "CRISPR Review"); ("authors", JStr "");
      ("pubdate", JStr ""); ("journal", JStr ""); ("doi", JStr "");
      ("url", JStr "https://pubmed.ncbi.nlm.nih.gov/222/") ] ].

(** One identifier, whose record gives the journal as a number. *)
Definition numeric_journal_net : network :=
  serve (ok_json (locator_body (JArr [JStr "1"])))
        (ok_json (summarizer_body
                    (JObj [("1", JObj [("title", JStr "T");
                                       ("fulljournalname", JInt 5)])]))).

(** One identifier, whose record has an identifier entry that is a bare
    string before one without a type tag. *)
Definition stray_article : json :=
  JObj [ ("title", JStr "T");
         ("articleids", JArr [JStr "x"; JObj [("value", JStr "y")]]) ].

Definition stray_net : network :=
  serve (ok_json (locator_body (JArr [JStr "1"])))
        (ok_json (summarizer_body (JObj [("1", stray_article)]))).

(** One identifier, whose record has an identifier entry tagged ["pmid"]
    before one without a type tag. *)
Definition pmid_then_untagged : pydict :=
  [ ("title", JStr "T");
    ("articleids",
     JArr [ JObj [("idtype", JStr "pmid"); ("value", JStr "1")];
            JObj [("value", JStr "x")];
            JObj [("idtype", JStr "doi"); ("value", JStr "10.1/x")] ]) ].

Definition pmid_then_untagged_net : network :=
  serve (ok_json (locator_body (JArr [JStr "1"])))
        (ok_json (summarizer_body (JObj [("1", JObj pmid_then_untagged)]))).

(** * Properties *)

Section Properties.

Variable exc_str : exn -> string.
Variable render : json -> string.
Variable net : network.

(** ** The shape of one run of [_fetch_pubmed_data] *)

(** The run in terms of what the network answers: which requests are
    issued, and where an exception leaves the function. *)
Lemma fetch_run (query : string) (max_results : Z) (t : trace) :
  _fetch_pubmed_data render net query max_results t =
  let t1 := (t ++ [locator_request query max_results])%list in
  match locator_idlist net query max_results with
  | Raise e => (Raise e, t1)
  | Return article_ids =>
      if py_truthy article_ids then
        match py_join "," article_ids with
        | Raise e => (Raise e, t1)
        | Return ids =>
            let t2 := (t1 ++ [summarizer_request ids])%list in
            match summarizer_result net ids with
            | Raise e => (Raise e, t2)
            | Return summaries =>
                (items <~ py_iter article_ids ;;
                 for_article_ids render summaries items [], t2)
            end
        end
      else (Return [], t1)
  end.
Proof.
  unfold _fetch_pubmed_data, locator_idlist, summarizer_result, decoded,
    locator_request, summarizer_request, requests_get, bind, lift, ret.
  cbv zeta.
  destruct (net _) as [text | r]; [reflexivity |].
  destruct (raise_for_status r) as [[] | e]; [| reflexivity].
  destruct (response_json r) as [search_data | e]; [| reflexivity].
  cbn [obind].
  destruct (py_getitem search_data _) as [esr | e]; [| reflexivity].
  cbn [obind].
  destruct (py_getitem esr _) as [article_ids | e]; [| reflexivity].
  destruct (py_truthy article_ids); [| reflexivity].
  cbn [negb].
  destruct (py_join "," article_ids) as [ids | e]; [| reflexivity].
  destruct (net _) as [text | r2]; [reflexivity |].
  destruct (raise_for_status r2) as [[] | e]; [| reflexivity].
  destruct (response_json r2) as [data | e]; [| reflexivity].
  cbn [obind].
  destruct (py_getitem data _) as [summaries | e]; [| reflexivity].
  destruct (py_iter article_ids); reflexivity.
Qed.

(** ** The entry point *)

(** [search_pubmed] issues the requests of [_fetch_pubmed_data] and no
    other. *)
Lemma search_pubmed_trace (query : string) (max_results : Z) (t : trace) :
  snd (search_pubmed exc_str render net query max_results t) =
  snd (_fetch_pubmed_data render net query max_results t).
Proof.
  unfold search_pubmed, search_pubmed_try, try_except, bind, lift, ret.
  destruct (_fetch_pubmed_data render net query max_results t)
    as [[articles | e] t']; [| reflexivity].
  destruct articles as [| a rest]; [reflexivity |].
  destruct (_format_results render query (a :: rest)); reflexivity.
Qed.

(** The result of [search_pubmed] from the results of its two helpers. *)
Lemma search_pubmed_result (query : string) (max_results : Z) (t : trace) :
  fst (search_pubmed exc_str render net query max_results t) =
  match fst (_fetch_pubmed_data render net query max_results t) with
  | Raise e => Return ("Error in PubMed search: " ++ exc_str e)
  | Return [] =>
      Return ("No PubMed results found for query: '" ++ query ++ "'.")
  | Return articles =>
      match _format_results render query articles with
      | Return markdown => Return markdown
      | Raise e => Return ("Error in PubMed search: " ++ exc_str e)
      end
  end.
Proof.
  unfold search_pubmed, search_pubmed_try, try_except, bind, lift, ret.
  destruct (_fetch_pubmed_data render net query max_results t)
    as [[articles | e] t']; [| reflexivity].
  destruct articles as [| a rest]; [reflexivity |].
  cbn [fst].
  destruct (_format_results render query (a :: rest)); reflexivity.
Qed.

(** The locator request is issued first, whatever [max_results] is. *)
Lemma fetch_first_request (query : string) (max_results : Z) (t : trace) :
  exists rest,
    snd (_fetch_pubmed_data render net query max_results t) =
    (t ++ locator_request query max_results :: rest)%list.
Proof.
  rewrite fetch_run. cbv zeta.
  destruct (locator_idlist net query max_results) as [ids | e];
    [| exists []; reflexivity].
  destruct (py_truthy ids); [| exists []; reflexivity].
  destruct (py_join "," ids) as [joined | e]; [| exists []; reflexivity].
  exists [summarizer_request joined].
  destruct (summarizer_result net joined); cbn [snd];
    rewrite <- app_assoc; reflexivity.
Qed.

(** C1 (amended). For every query, every [max_results] and every behaviour
    of the two endpoints, [search_pubmed] returns a string and raises
    nothing: the no-results message when the helper returns no article,
    the report when it returns some and the formatter succeeds, and the
    text ["Error in PubMed search: "] followed by the text of the exception
    when either helper raises. *)
Theorem search_pubmed_returns_a_string
    (query : string) (max_results : Z) (t : trace) :
  exists s : string,
    fst (search_pubmed exc_str render net query max_results t) = Return s /\
    match fst (_fetch_pubmed_data render net query max_results t) with
    | Raise e => s = "Error in PubMed search: " ++ exc_str e
    | Return [] => s = "No PubMed results found for query: '" ++ query ++ "'."
    | Return articles =>
        match _format_results render query articles with
        | Return markdown => s = markdown
        | Raise e => s = "Error in PubMed search: " ++ exc_str e
        end
    end.
Proof.
  rewrite search_pubmed_result.
  destruct (fst (_fetch_pubmed_data render net query max_results t))
    as [articles | e]; [| eexists; split; reflexivity].
  destruct articles as [| a rest]; [eexists; split; reflexivity |].
  destruct (_format_results render query (a :: rest));
    eexists; split; reflexivity.
Qed.

(** C2 (the code at the failing inputs). With [max_results] 0 or 51 the
    call is not rejected: the locator request, carrying that value as
    [retmax], is issued to the network. *)
Theorem out_of_range_limit_reaches_the_network (query : string) (t : trace) :
  (exists rest,
     snd (search_pubmed exc_str render net query 0 t) =
     (t ++ locator_request query 0 :: rest)%list) /\
  (exists rest,
     snd (search_pubmed exc_str render net query 51 t) =
     (t ++ locator_request query 51 :: rest)%list).
Proof.
  split; rewrite search_pubmed_trace; apply fetch_first_request.
Qed.

(** C3. When the locator answers with an empty identifier list,
    [_fetch_pubmed_data] returns the empty list without raising and
    [search_pubmed] returns the no-results message for the query; the
    locator request is the only request issued. *)
Theorem empty_idlist_short_circuits
    (query : string) (max_results : Z) (t : trace) :
  locator_idlist net query max_results = Return (JArr []) ->
  _fetch_pubmed_data render net query max_results t =
    (Return [], (t ++ [locator_request query max_results])%list) /\
  search_pubmed exc_str render net query max_results t =
    (Return ("No PubMed results found for query: '" ++ query ++ "'."),
     (t ++ [locator_request query max_results])%list).
Proof.
  intros Hids.
  assert (Hfetch : _fetch_pubmed_data render net query max_results t =
            (Return [], (t ++ [locator_request query max_results])%list)).
  { rewrite fetch_run, Hids. reflexivity. }
  split; [exact Hfetch |].
  unfold search_pubmed, search_pubmed_try, try_except, bind.
  rewrite Hfetch. reflexivity.
Qed.

(** ** Identifier lists *)

Lemma str_items_strings (pos : nat) (ids : list string) :
  str_items pos (map JStr ids) = Return ids.
Proof.
  revert pos. induction ids as [| id ids IH]; intros pos; cbn.
  - reflexivity.
  - rewrite IH. reflexivity.
Qed.

Lemma py_join_strings (sep : string) (ids : list string) :
  py_join sep (JArr (map JStr ids)) = Return (String.concat sep ids).
Proof.
  unfold py_join, join_items. cbn [py_iter obind].
  rewrite str_items_strings. reflexivity.
Qed.

Lemma py_truthy_list (l : list json) :
  py_truthy (JArr l) = negb (Nat.eqb (List.length l) 0).
Proof. destruct l; reflexivity. Qed.

(** ** The loop over the identifiers *)

(** When every turn succeeds the loop appends one record per identifier,
    in their order. *)
Lemma for_article_ids_returns (summaries : json) (items : list json)
    (rs : list pydict) :
  Forall2 (fun item r => record_of render summaries item = Return r) items rs ->
  forall results,
    for_article_ids render summaries items results =
    Return (results ++ rs)%list.
Proof.
  induction 1 as [| item r items rs Hr _ IH]; intros results; cbn.
  - rewrite app_nil_r. reflexivity.
  - rewrite Hr. cbn. rewrite IH, <- app_assoc. reflexivity.
Qed.

(** Conversely, what the loop returns is what it had plus one record per
    identifier. *)
Lemma for_article_ids_inv (summaries : json) (items : list json) :
  forall results out,
    for_article_ids render summaries items results = Return out ->
    exists rs,
      out = (results ++ rs)%list /\
      Forall2 (fun item r => record_of render summaries item = Return r)
        items rs.
Proof.
  induction items as [| item items IH]; intros results out H; cbn in H.
  - injection H as <-. exists []. rewrite app_nil_r. split; constructor.
  - destruct (record_of render summaries item) as [r | e] eqn:Hr;
      cbn in H; [| discriminate].
    destruct (IH _ _ H) as (rs & -> & Hall).
    exists (r :: rs). rewrite <- app_assoc. split; [reflexivity |].
    constructor; assumption.
Qed.

(** A turn that raises ends the loop: the loop raises the exception of
    the first such turn and returns no list. *)
Lemma for_article_ids_raises (summaries : json) (items : list json) :
  (exists item e, In item items /\ record_of render summaries item = Raise e) ->
  forall results,
    exists item e,
      In item items /\ record_of render summaries item = Raise e /\
      for_article_ids render summaries items results = Raise e.
Proof.
  induction items as [| item items IH]; intros (bad & e & Hin & Hbad) results.
  - destruct Hin.
  - cbn [for_article_ids].
    destruct (record_of render summaries item) as [r | e'] eqn:Hr.
    + destruct Hin as [-> | Hin]; [congruence |].
      destruct (IH (ex_intro _ bad (ex_intro _ e (conj Hin Hbad)))
                  (results ++ [r])%list) as (item' & e' & Hin' & Hr' & Hloop).
      exists item', e'. cbn [obind]. auto using in_cons.
    + exists item, e'. cbn [obind]. auto using in_eq.
Qed.

(** ** The exceptions of the extraction *)

(** Once both responses are decoded no exception is a [RemoteError]. *)

Lemma malformed_only_return {A} (a : A) : malformed_only (Return a).
Proof. intros e H. discriminate. Qed.

Lemma malformed_only_raise {A} (e : exn) :
  error_kind_of e = MalformedResponseError -> malformed_only (@Raise A e).
Proof. intros He e' H. injection H as <-. exact He. Qed.

Lemma malformed_only_bind {A B} (o : outcome A) (k : A -> outcome B) :
  malformed_only o -> (forall a, malformed_only (k a)) ->
  malformed_only (obind o k).
Proof.
  intros Ho Hk e H. destruct o as [a | e']; cbn in H.
  - exact (Hk a e H).
  - injection H as <-. apply Ho. reflexivity.
Qed.

Lemma malformed_only_if {A} (b : bool) (o1 o2 : outcome A) :
  malformed_only o1 -> malformed_only o2 ->
  malformed_only (if b then o1 else o2).
Proof. destruct b; auto. Qed.

Lemma at_index_malformed (l : list json) (i : Z) (v key : json) :
  malformed_only (at_index l i (IndexError v key)).
Proof.
  unfold at_index. intros e H.
  destruct (resolve_index i (List.length l)) as [n |];
    [destruct (nth_error l n) |]; try discriminate;
    injection H as <-; reflexivity.
Qed.

Lemma py_getitem_malformed (v key : json) : malformed_only (py_getitem v key).
Proof.
  destruct v; cbn [py_getitem];
    try (apply malformed_only_raise; reflexivity);
    destruct key; try (apply malformed_only_raise; reflexivity);
    try apply at_index_malformed.
  destruct (lookup s fields);
    [apply malformed_only_return | apply malformed_only_raise; reflexivity].
Qed.

Lemma py_get_malformed (v : json) (k : string) (default : json) :
  malformed_only (py_get v k default).
Proof.
  destruct v; cbn [py_get];
    first [apply malformed_only_return
          | apply malformed_only_raise; reflexivity].
Qed.

Lemma py_contains_malformed (k : string) (v : json) :
  malformed_only (py_contains k v).
Proof.
  destruct v; cbn [py_contains];
    first [apply malformed_only_return
          | apply malformed_only_raise; reflexivity].
Qed.

Lemma py_iter_malformed (v : json) : malformed_only (py_iter v).
Proof.
  destruct v; cbn [py_iter];
    first [apply malformed_only_return
          | apply malformed_only_raise; reflexivity].
Qed.

Lemma str_items_malformed (l : list json) :
  forall pos, malformed_only (str_items pos l).
Proof.
  induction l as [| v l IH]; intros pos; cbn [str_items].
  - apply malformed_only_return.
  - destruct v; try (apply malformed_only_raise; reflexivity).
    apply malformed_only_bind; [apply IH |].
    intros ss. apply malformed_only_return.
Qed.

Lemma join_items_malformed (sep : string) (l : list json) :
  malformed_only (join_items sep l).
Proof.
  unfold join_items. apply malformed_only_bind; [apply str_items_malformed |].
  intros ss. apply malformed_only_return.
Qed.

Create HintDb malformed.

#[local] Hint Resolve malformed_only_return malformed_only_bind
  malformed_only_if py_getitem_malformed py_get_malformed
  py_contains_malformed py_iter_malformed join_items_malformed : malformed.

Lemma author_names_malformed (authors : list json) :
  malformed_only (author_names authors).
Proof.
  induction authors as [| author rest IH]; cbn [author_names];
    auto 10 with malformed.
Qed.

Lemma next_doi_malformed (articleids : list json) :
  malformed_only (next_doi articleids).
Proof.
  induction articleids as [| id_obj rest IH]; cbn [next_doi];
    auto 10 with malformed.
Qed.

#[local] Hint Resolve author_names_malformed next_doi_malformed : malformed.

Lemma record_of_malformed (summaries article_id : json) :
  malformed_only (record_of render summaries article_id).
Proof.
  unfold record_of, authors_of, doi_of. auto 20 with malformed.
Qed.

(** ** Extraction from a well-formed record *)

Lemma author_names_well_formed (authors : list json) :
  forallb author_ok authors = true ->
  exists names, author_names authors = Return (map JStr names).
Proof.
  induction authors as [| author rest IH]; intros Hok.
  - exists []. reflexivity.
  - cbn [forallb] in Hok. apply andb_prop in Hok as [Ha Hrest].
    destruct (IH Hrest) as (names & Hnames).
    destruct author as [| | | | | | f]; try discriminate.
    cbn [author_names py_contains py_getitem obind]. cbn [author_ok] in Ha.
    destruct (lookup "name" f) as [name |]; cbn [obind].
    + destruct (py_truthy name) eqn:Htruthy; cbn [obind].
      * destruct name; try discriminate.
        rewrite Hnames. exists (s :: names). reflexivity.
      * exists names. exact Hnames.
    + exists names. exact Hnames.
Qed.

Lemma next_doi_well_formed (articleids : list json) :
  forallb articleid_ok articleids = true ->
  exists doi, next_doi articleids = Return doi.
Proof.
  induction articleids as [| id_obj rest IH]; intros Hok.
  - exists (JStr ""). reflexivity.
  - cbn [forallb] in Hok. apply andb_prop in Hok as [Hid Hrest].
    destruct id_obj as [| | | | | | f]; try discriminate.
    cbn [articleid_ok] in Hid. apply andb_prop in Hid as [Htype Hvalue].
    unfold has_key in Htype, Hvalue.
    cbn [next_doi py_getitem].
    destruct (lookup "idtype" f) as [idtype |]; [| discriminate].
    cbn [obind].
    destruct (py_eq_str idtype "doi"); [| exact (IH Hrest)].
    destruct (lookup "value" f) as [value |]; [| discriminate].
    exists value. reflexivity.
Qed.

(** A well-formed record yields a record of the result, with the URL of
    its identifier. *)
Lemma record_of_well_formed (summaries article : json) (id : string) :
  py_getitem summaries (JStr id) = Return article ->
  well_formed_summary article = true ->
  exists r,
    record_of render summaries (JStr id) = Return r /\
    lookup "url" r = Some (JStr (article_url id)).
Proof.
  intros Hentry Hok. unfold record_of. rewrite Hentry. cbn [obind].
  destruct article as [| | | | | | d]; try discriminate.
  cbn [well_formed_summary] in Hok.
  apply andb_prop in Hok as [Hok Hids]. apply andb_prop in Hok as [Htitle Hau].
  unfold has_key in Htitle. cbn [py_getitem].
  destruct (lookup "title" d) as [title |]; [| discriminate]. cbn [obind].
  assert (Hauthors : exists a, authors_of (JObj d) = Return a).
  { unfold authors_of. cbn [py_contains py_get obind]. unfold dict_get.
    destruct (lookup "authors" d) as [authors |]; [| exists ""; reflexivity].
    destruct authors as [| | | | | l |]; try discriminate.
    cbn [py_iter obind].
    destruct (author_names_well_formed l Hau) as (names & ->).
    cbn [obind]. unfold join_items. rewrite str_items_strings.
    eexists. reflexivity. }
  destruct Hauthors as (a & ->). cbn [obind py_get].
  assert (Hdoi : exists doi, doi_of (JObj d) = Return doi).
  { unfold doi_of. cbn [py_get obind]. unfold dict_get.
    destruct (lookup "articleids" d) as [articleids |];
      [| exists (JStr ""); reflexivity].
    destruct articleids as [| | | | | l |]; try discriminate.
    cbn [py_iter obind]. exact (next_doi_well_formed l Hids). }
  destruct Hdoi as (doi & ->). cbn [obind].
  eexists. split; reflexivity.
Qed.

(** ** The DOI of a record *)

(** Entries tagged with another type are passed over. *)
Lemma next_doi_skips (pre rest : list json) :
  forallb other_id_entry pre = true ->
  next_doi (pre ++ rest) = next_doi rest.
Proof.
  induction pre as [| id_obj pre IH]; intros Hpre; [reflexivity |].
  cbn [forallb] in Hpre. apply andb_prop in Hpre as [Hid Hpre].
  destruct id_obj as [| | | | | | f]; try discriminate.
  cbn [other_id_entry] in Hid.
  cbn [app next_doi py_getitem].
  destruct (lookup "idtype" f) as [idtype |]; [| discriminate].
  cbn [obind]. destruct (py_eq_str idtype "doi"); [discriminate |].
  exact (IH Hpre).
Qed.

(** An object without a type tag is reached when no earlier object is
    tagged ["doi"], and the lookup of its tag raises. *)
Lemma next_doi_untagged (pre post : list json) (f : pydict) :
  forallb is_object pre = true ->
  forallb (fun id_obj => negb (is_doi_entry id_obj)) pre = true ->
  lookup "idtype" f = None ->
  next_doi (pre ++ JObj f :: post) = Raise (KeyError (JStr "idtype")).
Proof.
  intros Hobj Hnone Hf.
  induction pre as [| id_obj pre IH].
  - cbn [app next_doi py_getitem]. rewrite Hf. reflexivity.
  - cbn [forallb] in Hobj, Hnone.
    apply andb_prop in Hobj as [Ho Hobj].
    apply andb_prop in Hnone as [Hn Hnone].
    destruct id_obj as [| | | | | | g]; try discriminate.
    cbn [is_doi_entry] in Hn.
    cbn [app next_doi py_getitem].
    destruct (lookup "idtype" g) as [idtype |]; [| reflexivity].
    cbn [obind]. destruct (py_eq_str idtype "doi"); [discriminate |].
    exact (IH Hobj Hnone).
Qed.

(** ** Runs with an identifier list *)

(** With a non-empty list of identifiers and a decoded summarizer answer,
    the run is the loop, after the two requests. *)
Lemma fetch_with_ids (query : string) (max_results : Z) (t : trace)
    (ids : list string) (summaries : json) :
  locator_idlist net query max_results = Return (JArr (map JStr ids)) ->
  ids <> [] ->
  summarizer_result net (String.concat "," ids) = Return summaries ->
  _fetch_pubmed_data render net query max_results t =
  (for_article_ids render summaries (map JStr ids) [],
   (t ++ [locator_request query max_results;
          summarizer_request (String.concat "," ids)])%list).
Proof.
  intros Hloc Hne Hsum. rewrite fetch_run, Hloc. cbv zeta.
  destruct ids as [| id ids]; [congruence |].
  change (py_truthy (JArr (map JStr (id :: ids)))) with true. cbv iota.
  rewrite py_join_strings, Hsum. cbn [py_iter obind].
  rewrite <- app_assoc. reflexivity.
Qed.

Lemma Forall2_record_items (summaries : json) (ids : list string)
    (records : list pydict) :
  Forall2 (fun id r =>
             record_of render summaries (JStr id) = Return r /\
             lookup "url" r = Some (JStr (article_url id))) ids records ->
  Forall2 (fun item r => record_of render summaries item = Return r)
    (map JStr ids) records.
Proof.
  induction 1 as [| id r ids records [Hr _] _ IH]; cbn [map]; constructor;
    assumption.
Qed.

(** C4 (amended). When the locator answers with the identifiers [ids] and
    the summarizer's answer has, for each of them, a well-formed record
    (an object with a title whose author and identifier lists are lists of
    well-formed entries), [_fetch_pubmed_data] returns exactly one Record
    per identifier, in the order of [ids]: the i-th Record is the one
    extracted from the entry of the i-th identifier and carries its URL. *)
Theorem one_record_per_id_in_order (query : string) (max_results : Z)
    (t : trace) (ids : list string) (summaries : json) :
  locator_idlist net query max_results = Return (JArr (map JStr ids)) ->
  (ids <> [] ->
   summarizer_result net (String.concat "," ids) = Return summaries) ->
  (forall id, In id ids ->
     exists article,
       py_getitem summaries (JStr id) = Return article /\
       well_formed_summary article = true) ->
  exists records,
    fst (_fetch_pubmed_data render net query max_results t) = Return records /\
    List.length records = List.length ids /\
    Forall2 (fun id r =>
               record_of render summaries (JStr id) = Return r /\
               lookup "url" r = Some (JStr (article_url id))) ids records.
Proof.
  intros Hloc Hsum Hentries.
  assert (Hrecords : exists records,
            Forall2 (fun id r =>
                       record_of render summaries (JStr id) = Return r /\
                       lookup "url" r = Some (JStr (article_url id)))
              ids records).
  { clear Hloc Hsum. induction ids as [| id ids IH].
    - exists []. constructor.
    - destruct (Hentries id (in_eq _ _)) as (article & Hentry & Hok).
      destruct (record_of_well_formed summaries article id Hentry Hok)
        as (r & Hr & Hurl).
      destruct IH as (records & Hall).
      { intros id' Hin. apply Hentries. right. exact Hin. }
      exists (r :: records). constructor; [split |]; assumption. }
  destruct Hrecords as (records & Hall).
  exists records. split; [| split].
  - destruct ids as [| id ids].
    + inversion Hall; subst. rewrite fetch_run, Hloc. reflexivity.
    + rewrite (fetch_with_ids query max_results t (id :: ids) summaries);
        [| assumption | discriminate | apply Hsum; discriminate ].
      cbn [fst].
      rewrite (for_article_ids_returns summaries _ records);
        [reflexivity | apply Forall2_record_items; exact Hall].
  - symmetry. exact (Forall2_length Hall).
  - exact Hall.
Qed.

(** A record without a title: the lookup of the title raises. *)
Lemma record_of_untitled (summaries : json) (id : string) (d : pydict) :
  py_getitem summaries (JStr id) = Return (JObj d) ->
  lookup "title" d = None ->
  record_of render summaries (JStr id) = Raise (KeyError (JStr "title")).
Proof.
  intros Hentry Htitle. unfold record_of. rewrite Hentry.
  cbn [obind py_getitem]. rewrite Htitle. reflexivity.
Qed.

(** The run raises as soon as the extraction of one identifier does, and
    what it raises is no [RemoteError]. *)
Lemma fetch_raises (query : string) (max_results : Z) (t : trace)
    (ids : list string) (summaries : json) :
  locator_idlist net query max_results = Return (JArr (map JStr ids)) ->
  summarizer_result net (String.concat "," ids) = Return summaries ->
  (exists id e, In id ids /\
                record_of render summaries (JStr id) = Raise e) ->
  exists e,
    fst (_fetch_pubmed_data render net query max_results t) = Raise e /\
    error_kind_of e = MalformedResponseError.
Proof.
  intros Hloc Hsum (id & e & Hin & Hraise).
  rewrite (fetch_with_ids query max_results t ids summaries Hloc);
    [| intros ->; destruct Hin | exact Hsum].
  destruct (for_article_ids_raises summaries (map JStr ids)) with (results := @nil pydict)
    as (item & e' & _ & Hitem & Hloop).
  { exists (JStr id), e. split; [apply in_map; exact Hin | exact Hraise]. }
  exists e'. split; [exact Hloop |].
  exact (record_of_malformed summaries item e' Hitem).
Qed.

(** C6. When the summarizer's answer has no entry for one of the
    requested identifiers, [_fetch_pubmed_data] raises, an exception that
    is a [MalformedResponseError] in the taxonomy of the specification: it
    returns no list, so no identifier is skipped and no partial list is
    given. *)
Theorem missing_id_fails (query : string) (max_results : Z) (t : trace)
    (ids : list string) (summaries : json) :
  locator_idlist net query max_results = Return (JArr (map JStr ids)) ->
  summarizer_result net (String.concat "," ids) = Return summaries ->
  (exists id, In id ids /\
     forall article, py_getitem summaries (JStr id) <> Return article) ->
  exists e,
    fst (_fetch_pubmed_data render net query max_results t) = Raise e /\
    error_kind_of e = MalformedResponseError.
Proof.
  intros Hloc Hsum (id & Hin & Habsent).
  apply (fetch_raises query max_results t ids summaries Hloc Hsum).
  destruct (py_getitem summaries (JStr id)) as [article | e] eqn:Hentry.
  - destruct (Habsent article). reflexivity.
  - exists id, e. split; [exact Hin |].
    unfold record_of. rewrite Hentry. reflexivity.
Qed.

(** C7 (amended). The locator request carries [retmax = max_results], and
    the Record sequence that [_fetch_pubmed_data] returns has exactly as
    many Records as the locator's answer lists identifiers; so it does not
    exceed [max_results] whenever the locator's list does not. *)
Theorem retmax_and_record_count (query : string) (max_results : Z)
    (t : trace) :
  (exists rest,
     snd (_fetch_pubmed_data render net query max_results t) =
     (t ++ locator_request query max_results :: rest)%list /\
     In ("retmax", PInt max_results)
        (req_params (locator_request query max_results))) /\
  (forall items records,
     locator_idlist net query max_results = Return (JArr items) ->
     fst (_fetch_pubmed_data render net query max_results t) = Return records ->
     List.length records = List.length items /\
     (Z.of_nat (List.length items) <= max_results ->
      Z.of_nat (List.length records) <= max_results)).
Proof.
  split.
  - destruct (fetch_first_request query max_results t) as (rest & Hrest).
    exists rest. split; [exact Hrest |].
    cbn. right. right. right. left. reflexivity.
  - intros items records Hloc Hfetch.
    assert (Hlen : List.length records = List.length items).
    { rewrite fetch_run, Hloc in Hfetch. cbv zeta in Hfetch.
      destruct items as [| item items].
      - cbn in Hfetch. injection Hfetch as <-. reflexivity.
      - change (py_truthy (JArr (item :: items))) with true in Hfetch.
        cbv iota in Hfetch.
        destruct (py_join "," (JArr (item :: items))) as [joined | e];
          [| discriminate].
        destruct (summarizer_result net joined) as [summaries | e];
          [| discriminate].
        cbn [fst py_iter obind] in Hfetch.
        destruct (for_article_ids_inv summaries _ _ _ Hfetch)
          as (rs & -> & Hall).
        cbn [app]. symmetry. exact (Forall2_length Hall). }
    split; [exact Hlen | rewrite Hlen; trivial].
Qed.

(** C8 (amended). For a record whose [articleids] is the list [l] (the
    empty list when the key is absent): if every entry of [l] is an object
    with a type tag other than ["doi"], the extracted doi is the empty
    string; and if [l] has an entry tagged ["doi"] that has a value, all
    entries before it being objects with a type tag other than ["doi"],
    the extracted doi is that value. *)
Theorem doi_is_first_doi_entry (d : pydict) (l : list json) :
  dict_get d "articleids" (JArr []) = JArr l ->
  (forallb other_id_entry l = true -> doi_of (JObj d) = Return (JStr "")) /\
  (forall pre f post value,
     l = (pre ++ JObj f :: post)%list ->
     forallb other_id_entry pre = true ->
     is_doi_entry (JObj f) = true ->
     lookup "value" f = Some value ->
     doi_of (JObj d) = Return value).
Proof.
  intros Hl. unfold doi_of. cbn [py_get obind]. rewrite Hl.
  cbn [py_iter obind]. split.
  - intros Hother.
    rewrite <- (app_nil_r l), (next_doi_skips l [] Hother). reflexivity.
  - intros pre f post value -> Hpre Hdoi Hvalue.
    rewrite (next_doi_skips pre _ Hpre).
    cbn [is_doi_entry] in Hdoi. cbn [next_doi py_getitem].
    destruct (lookup "idtype" f) as [idtype |]; [| discriminate].
    cbn [obind]. rewrite Hdoi, Hvalue. reflexivity.
Qed.

(** The first entry without a type tag, no earlier entry being tagged
    ["doi"]: the generator raises there or before.  It raises [KeyError]
    on ["idtype"] at an object that lacks the key, [TypeError] at an entry
    that is no object. *)
Lemma next_doi_lacking (pre post : list json) (x : json) :
  forallb (fun id_obj => negb (is_doi_entry id_obj)) pre = true ->
  lacks_idtype x = true ->
  exists e,
    next_doi (pre ++ x :: post) = Raise e /\
    (e = KeyError (JStr "idtype") \/ exists why, e = TypeError why) /\
    (forallb is_object (pre ++ [x]) = true -> e = KeyError (JStr "idtype")).
Proof.
  intros Hnone Hx.
  assert (Hraise : forall y rest,
            lacks_idtype y = true ->
            exists e,
              next_doi (y :: rest) = Raise e /\
              (e = KeyError (JStr "idtype") \/ exists why, e = TypeError why) /\
              (is_object y = true -> e = KeyError (JStr "idtype"))).
  { intros y rest Hy. cbn [next_doi].
    destruct y as [| | | | | | g]; cbn [py_getitem obind];
      try (eexists; split; [reflexivity |];
           split; [right; eexists; reflexivity | discriminate]).
    cbn [lacks_idtype] in Hy. unfold has_key in Hy.
    destruct (lookup "idtype" g); [discriminate Hy |].
    eexists. split; [reflexivity |]. split; [left |]; reflexivity. }
  induction pre as [| y pre IH].
  - cbn [app forallb]. destruct (Hraise x post Hx) as (e & He & Hkind & Hkey).
    exists e. split; [exact He |]. split; [exact Hkind |].
    intros H. apply Hkey. apply andb_prop in H as [H _]. exact H.
  - cbn [forallb] in Hnone. apply andb_prop in Hnone as [Hy Hnone].
    destruct (lacks_idtype y) eqn:Hlacks.
    + destruct (Hraise y (pre ++ x :: post)%list Hlacks)
        as (e & He & Hkind & Hkey).
      exists e. split; [exact He |]. split; [exact Hkind |].
      intros H. cbn [app forallb] in H. apply andb_prop in H as [H _].
      exact (Hkey H).
    + destruct y as [| | | | | | g]; try discriminate Hlacks.
      cbn [lacks_idtype] in Hlacks. unfold has_key in Hlacks.
      cbn [is_doi_entry] in Hy.
      destruct (IH Hnone) as (e & He & Hkind & Hkey).
      exists e. split; [| split; [exact Hkind |]].
      * cbn [app next_doi py_getitem].
        destruct (lookup "idtype" g) as [idtype |]; [| discriminate Hlacks].
        cbn [obind]. destruct (py_eq_str idtype "doi"); [discriminate Hy |].
        exact He.
      * intros H. cbn [app forallb] in H. apply andb_prop in H as [_ H].
        exact (Hkey H).
Qed.

(** C10 (amended). When the record of a requested identifier has an
    [articleids] list with an entry that lacks the key ["idtype"], no
    earlier entry being tagged ["doi"], the extraction of its doi raises:
    [KeyError] on ["idtype"] when that entry and the entries before it are
    objects, and [KeyError] on ["idtype"] or [TypeError] in general (the
    latter at an entry that is no object).  In every case
    [_fetch_pubmed_data] raises and [search_pubmed] returns the error
    message with the text of the exception, not a report. *)
Theorem untagged_articleid_is_an_error (query : string) (max_results : Z)
    (t : trace) (ids : list string) (summaries : json) (id : string)
    (d : pydict) (pre : list json) (x : json) (post : list json) :
  locator_idlist net query max_results = Return (JArr (map JStr ids)) ->
  summarizer_result net (String.concat "," ids) = Return summaries ->
  In id ids ->
  py_getitem summaries (JStr id) = Return (JObj d) ->
  lookup "articleids" d = Some (JArr (pre ++ x :: post)) ->
  forallb (fun id_obj => negb (is_doi_entry id_obj)) pre = true ->
  lacks_idtype x = true ->
  (exists e,
     doi_of (JObj d) = Raise e /\
     (e = KeyError (JStr "idtype") \/ exists why, e = TypeError why) /\
     (forallb is_object (pre ++ [x]) = true ->
      e = KeyError (JStr "idtype"))) /\
  exists e,
    fst (_fetch_pubmed_data render net query max_results t) = Raise e /\
    fst (search_pubmed exc_str render net query max_results t) =
      Return ("Error in PubMed search: " ++ exc_str e).
Proof.
  intros Hloc Hsum Hin Hentry Hids Hnone Hx.
  destruct (next_doi_lacking pre post x Hnone Hx) as (e1 & Hnext & Hkind & Hkey).
  assert (Hdoi : doi_of (JObj d) = Raise e1).
  { unfold doi_of. cbn [py_get obind]. unfold dict_get. rewrite Hids.
    cbn [py_iter obind]. exact Hnext. }
  split; [exists e1; split; [exact Hdoi | split; assumption] |].
  assert (Hrecord : exists e, record_of render summaries (JStr id) = Raise e).
  { unfold record_of. rewrite Hentry. cbn [obind].
    destruct (py_getitem (JObj d) (JStr "title")) as [title | e];
      [| exists e; reflexivity].
    cbn [obind].
    destruct (authors_of (JObj d)) as [authors | e];
      [| exists e; reflexivity].
    cbn [obind py_get]. rewrite Hdoi.
    exists e1. reflexivity. }
  destruct Hrecord as (e0 & Hrecord).
  destruct (fetch_raises query max_results t ids summaries Hloc Hsum)
    as (e & Hfetch & _).
  { exists id, e0. split; assumption. }
  exists e. split; [exact Hfetch |].
  rewrite search_pubmed_result, Hfetch. reflexivity.
Qed.

(** ** The report *)

Lemma string_app_assoc (a b c : string) : (a ++ b) ++ c = a ++ b ++ c.
Proof. induction a as [| x a IH]; cbn; [| rewrite IH]; reflexivity. Qed.

Lemma string_app_nil_r (a : string) : a ++ "" = a.
Proof. induction a as [| x a IH]; cbn; [| rewrite IH]; reflexivity. Qed.

Lemma paragraphs_app (l1 l2 : list string) :
  paragraphs (l1 ++ l2) = paragraphs l1 ++ paragraphs l2.
Proof.
  induction l1 as [| line l1 IH]; cbn [app paragraphs]; [reflexivity |].
  rewrite IH, !string_app_assoc. reflexivity.
Qed.

(** A field of a Record is absent or a string. *)
Lemma str_valued_lookup (r : pydict) (k : string) (v : json) :
  str_valued r = true -> lookup k r = Some v -> exists s, v = JStr s.
Proof.
  unfold str_valued. induction r as [| [k' v'] r IH]; cbn; [discriminate |].
  intros Hr Hk. apply andb_prop in Hr as [Hv Hr].
  destruct (String.eqb k k').
  - injection Hk as <-. destruct v'; try discriminate. eexists. reflexivity.
  - exact (IH Hr Hk).
Qed.

Lemma py_truthy_str (s : string) : py_truthy (JStr s) = nonempty s.
Proof. destruct s; reflexivity. Qed.

(** The three ways the formatter meets a field [k] of a Record. *)
Lemma field_cases (r : pydict) (k : string) :
  str_valued r = true ->
  (lookup k r = None /\ text_field k r = "") \/
  (lookup k r = Some (JStr (text_field k r))).
Proof.
  intros Hr. unfold text_field.
  destruct (lookup k r) as [v |] eqn:Hk; [right | left; split; reflexivity].
  destruct (str_valued_lookup r k v Hr Hk) as (s & ->). reflexivity.
Qed.

(** A line printed iff the field is true. *)
Lemma optional_step (r : pydict) (k label markdown : string) :
  str_valued r = true ->
  (if py_truthy (dict_get r k JNull)
   then v <~ py_getitem (JObj r) (JStr k) ;;
        Return (markdown ++ label ++ py_str render v ++ nl ++ nl)
   else Return markdown) =
  Return (markdown ++ paragraphs (optional_line label (text_field k r))).
Proof.
  intros Hr. unfold dict_get, optional_line. cbn [py_getitem].
  destruct (field_cases r k Hr) as [[-> ->] | ->].
  - cbn. rewrite string_app_nil_r. reflexivity.
  - rewrite py_truthy_str. destruct (nonempty (text_field k r)).
    + cbn [obind py_str paragraphs].
      rewrite !string_app_assoc, string_app_nil_r. reflexivity.
    + cbn. rewrite string_app_nil_r. reflexivity.
Qed.

(** A field appended to [journal_info] iff it is true. *)
Lemma gather_step (r : pydict) (k : string) (info : list string) :
  str_valued r = true ->
  (if py_truthy (dict_get r k JNull)
   then v <~ py_getitem (JObj r) (JStr k) ;;
        Return (map JStr info ++ [v])%list
   else Return (map JStr info)) =
  Return (map JStr (info ++ filter nonempty [text_field k r])%list).
Proof.
  intros Hr. unfold dict_get. cbn [py_getitem filter].
  destruct (field_cases r k Hr) as [[-> ->] | ->].
  - cbn. rewrite app_nil_r. reflexivity.
  - rewrite py_truthy_str. destruct (nonempty (text_field k r)).
    + cbn [obind]. rewrite map_app. reflexivity.
    + rewrite app_nil_r. reflexivity.
Qed.

(** The line of the journal and the date. *)
Lemma published_step (parts : list string) (markdown : string) :
  (if py_truthy (JArr (map JStr parts))
   then joined <~ join_items " - " (map JStr parts) ;;
        Return (markdown ++ "**Published in:** " ++ joined ++ nl ++ nl)
   else Return markdown) =
  Return (markdown ++
          paragraphs match parts with
                     | [] => []
                     | _ => ["**Published in:** " ++ String.concat " - " parts]
                     end).
Proof.
  unfold join_items. rewrite str_items_strings.
  destruct parts as [| part parts].
  - cbn. rewrite string_app_nil_r. reflexivity.
  - cbn [map py_truthy obind paragraphs].
    rewrite !string_app_assoc, string_app_nil_r. reflexivity.
Qed.

Lemma title_step (r : pydict) :
  str_valued r = true ->
  py_str render (dict_get r "title" (JStr "Untitled")) = title_field r.
Proof.
  intros Hr. unfold dict_get, title_field.
  destruct (lookup "title" r) as [v |] eqn:Hk; [| reflexivity].
  destruct (str_valued_lookup r _ v Hr Hk) as (s & ->). reflexivity.
Qed.

Lemma url_step (r : pydict) :
  str_valued r = true ->
  py_str render (dict_get r "url" (JStr "")) = text_field "url" r.
Proof.
  intros Hr. unfold dict_get, text_field.
  destruct (lookup "url" r) as [v |] eqn:Hk; [| reflexivity].
  destruct (str_valued_lookup r _ v Hr Hk) as (s & ->). reflexivity.
Qed.

(** One turn of the loop appends the section of the Record. *)
Lemma format_article_section (i : nat) (r : pydict) (markdown : string) :
  str_valued r = true ->
  format_article render i r markdown =
  Return (markdown ++ paragraphs (section_lines (S i) r)).
Proof.
  intros Hr. unfold format_article. cbv zeta.
  rewrite (optional_step r "authors" "**Authors:** " _ Hr). cbn [obind].
  pose proof (gather_step r "journal" [] Hr) as Hjournal.
  cbn [map app] in Hjournal. cbn [app]. rewrite Hjournal. cbn [obind].
  rewrite (gather_step r "pubdate" _ Hr). cbn [obind].
  rewrite published_step. cbn [obind].
  rewrite (optional_step r "doi" "**DOI:** " _ Hr). cbn [obind].
  rewrite (title_step r Hr), (url_step r Hr), Nat.add_1_r.
  unfold section_lines, published_line, link_line.
  f_equal.
  rewrite <- (filter_app nonempty [text_field "journal" r]
                [text_field "pubdate" r]). cbn [app].
  cbn [paragraphs]. rewrite !paragraphs_app. cbn [paragraphs].
  rewrite !string_app_assoc, !string_app_nil_r.
  destruct (filter nonempty [text_field "journal" r; text_field "pubdate" r]);
    reflexivity.
Qed.

(** The loop appends the sections of the Records in their order. *)
Lemma for_articles_sections (rs : list pydict) :
  forallb str_valued rs = true ->
  forall i markdown,
    for_articles render i rs markdown =
    Return (markdown ++ paragraphs (sections (S i) rs)).
Proof.
  induction rs as [| r rs IH]; intros Hrs i markdown.
  - cbn. rewrite string_app_nil_r. reflexivity.
  - cbn [forallb] in Hrs. apply andb_prop in Hrs as [Hr Hrs].
    cbn [for_articles sections].
    rewrite (format_article_section i r markdown Hr). cbn [obind].
    rewrite (IH Hrs), paragraphs_app, string_app_assoc. reflexivity.
Qed.

Lemma prefix_empty (s : string) : String.prefix "" s = true.
Proof. destruct s; reflexivity. Qed.

(** Which optional lines the section of a Record has. *)
Lemma section_lines_optional (ordinal : nat) (r : pydict) :
  has_line "**Authors:** " (section_lines ordinal r) =
    nonempty (text_field "authors" r) /\
  has_line "**Published in:** " (section_lines ordinal r) =
    nonempty (text_field "journal" r) || nonempty (text_field "pubdate" r) /\
  has_line "**DOI:** " (section_lines ordinal r) =
    nonempty (text_field "doi" r) /\
  has_line "**PubMed Link:** " (section_lines ordinal r) = true.
Proof.
  unfold section_lines, optional_line, published_line, link_line, has_line.
  cbn [filter].
  destruct (nonempty (text_field "authors" r)),
    (nonempty (text_field "journal" r)), (nonempty (text_field "pubdate" r)),
    (nonempty (text_field "doi" r)); cbn; rewrite ?prefix_empty;
    repeat split; reflexivity.
Qed.

(** C9. For every query and every sequence of Records (dicts whose fields
    are strings), [_format_results] raises nothing and returns the header
    followed by the sections of the Records in input order, numbered from
    1, every line followed by a blank line.  A section has an Authors line
    iff [authors] is non-empty, a Published-in line iff [journal] or
    [pubdate] is non-empty (joining the non-empty ones with [" - "]), a DOI
    line iff [doi] is non-empty, and always a PubMed Link line; an absent
    field counts as empty. *)
Theorem format_results_layout (query : string) (rs : list pydict) :
  forallb str_valued rs = true ->
  _format_results render query rs = Return (report query rs) /\
  (forall ordinal r,
     has_line "**Authors:** " (section_lines ordinal r) =
       nonempty (text_field "authors" r) /\
     has_line "**Published in:** " (section_lines ordinal r) =
       nonempty (text_field "journal" r) || nonempty (text_field "pubdate" r) /\
     has_line "**DOI:** " (section_lines ordinal r) =
       nonempty (text_field "doi" r) /\
     has_line "**PubMed Link:** " (section_lines ordinal r) = true).
Proof.
  intros Hrs. split; [| exact section_lines_optional].
  unfold _format_results, report. cbv zeta.
  rewrite (for_articles_sections rs Hrs), paragraphs_app.
  cbn [header_lines paragraphs].
  rewrite !string_app_assoc. reflexivity.
Qed.

(** C5 (the code at the failing inputs). When the record of a requested
    identifier has no title, the title is not defaulted: the extraction
    raises [KeyError] on ["title"], [_fetch_pubmed_data] raises and
    [search_pubmed] returns the error message. *)
Theorem missing_title_is_an_error (query : string) (max_results : Z)
    (t : trace) (ids : list string) (summaries : json) (id : string)
    (d : pydict) :
  locator_idlist net query max_results = Return (JArr (map JStr ids)) ->
  summarizer_result net (String.concat "," ids) = Return summaries ->
  In id ids ->
  py_getitem summaries (JStr id) = Return (JObj d) ->
  lookup "title" d = None ->
  record_of render summaries (JStr id) = Raise (KeyError (JStr "title")) /\
  exists e,
    fst (_fetch_pubmed_data render net query max_results t) = Raise e /\
    fst (search_pubmed exc_str render net query max_results t) =
      Return ("Error in PubMed search: " ++ exc_str e).
Proof.
  intros Hloc Hsum Hin Hentry Htitle.
  pose proof (record_of_untitled summaries id d Hentry Htitle) as Hrecord.
  split; [exact Hrecord |].
  destruct (fetch_raises query max_results t ids summaries Hloc Hsum)
    as (e & Hfetch & _).
  { exists id, (KeyError (JStr "title")). split; assumption. }
  exists e. split; [exact Hfetch |].
  rewrite search_pubmed_result, Hfetch. reflexivity.
Qed.

End Properties.

(** * The properties on the fixtures *)

(** C1 (counterexample). With both endpoints unreachable the error message
    is ["Error in PubMed search: boom"], which is not of the form
    ["Error in search: {message}"]. *)
Lemma error_message_form_counterexample :
  fst (search_pubmed text_of_exn text_of_value down_net "CRISPR" 5 []) =
    Return "Error in PubMed search: boom" /\
  forall message,
    fst (search_pubmed text_of_exn text_of_value down_net "CRISPR" 5 []) <>
    Return ("Error in search: " ++ message).
Proof.
  split; [reflexivity |].
  intros message H. cbn in H. discriminate H.
Qed.

(** C3 (witness). *)
Lemma empty_idlist_short_circuits_witness :
  locator_idlist empty_net "CRISPR" 5 = Return (JArr []) /\
  search_pubmed text_of_exn text_of_value empty_net "CRISPR" 5 [] =
    (Return "No PubMed results found for query: 'CRISPR'.",
     [locator_request "CRISPR" 5]).
Proof.
  split; [reflexivity |].
  exact (proj2 (empty_idlist_short_circuits text_of_exn text_of_value
                  empty_net "CRISPR" 5 [] eq_refl)).
Defined.

(** C4 (counterexample). The summarizer has an entry for the one
    identifier, with a title, but an identifier entry of it has no type
    tag: no Record is returned. *)
Lemma one_record_per_id_counterexample :
  locator_idlist untagged_net "CRISPR" 1 = Return (JArr [JStr "1"]) /\
  summarizer_result untagged_net "1" = Return (JObj [("1", untagged_article)]) /\
  py_getitem (JObj [("1", untagged_article)]) (JStr "1") =
    Return untagged_article /\
  fst (_fetch_pubmed_data text_of_value untagged_net "CRISPR" 1 []) =
    Raise (KeyError (JStr "idtype")) /\
  ~ (exists records,
       fst (_fetch_pubmed_data text_of_value untagged_net "CRISPR" 1 []) =
       Return records).
Proof.
  repeat split; try reflexivity.
  intros (records & H). discriminate H.
Qed.

(** C4 (witness): the scenario of the specification. *)
Lemma one_record_per_id_in_order_witness :
  exists records,
    fst (_fetch_pubmed_data text_of_value crispr_net "CRISPR" 2 []) =
      Return records /\
    List.length records = 2%nat /\
    Forall2 (fun id r =>
               record_of text_of_value crispr_summaries (JStr id) = Return r /\
               lookup "url" r = Some (JStr (article_url id)))
      ["111"; "222"] records.
Proof.
  apply (one_record_per_id_in_order text_of_value crispr_net "CRISPR" 2 []
           ["111"; "222"] crispr_summaries).
  - reflexivity.
  - intros _. reflexivity.
  - intros id [<- | [<- | []]]; eexists; split; reflexivity.
Defined.

(** C5 (witness): a record without a title. *)
Lemma missing_title_is_an_error_witness :
  record_of text_of_value (JObj [("1", JObj [("authors", JArr [])])]) (JStr "1") =
    Raise (KeyError (JStr "title")) /\
  exists e,
    fst (_fetch_pubmed_data text_of_value untitled_net "CRISPR" 1 []) = Raise e /\
    fst (search_pubmed text_of_exn text_of_value untitled_net "CRISPR" 1 []) =
      Return ("Error in PubMed search: " ++ text_of_exn e).
Proof.
  apply (missing_title_is_an_error text_of_exn text_of_value untitled_net
           "CRISPR" 1 [] ["1"] (JObj [("1", JObj [("authors", JArr [])])])
           "1" [("authors", JArr [])]).
  - reflexivity.
  - reflexivity.
  - left. reflexivity.
  - reflexivity.
  - reflexivity.
Defined.

(** The same run, evaluated. *)
Example missing_title_run :
  fst (search_pubmed text_of_exn text_of_value untitled_net "CRISPR" 1 []) =
  Return "Error in PubMed search: 'title'".
Proof. reflexivity. Qed.

(** C6 (witness): the locator names "333", which the summarizer omits. *)
Lemma missing_id_fails_witness :
  exists e,
    fst (_fetch_pubmed_data text_of_value partial_net "CRISPR" 2 []) = Raise e /\
    error_kind_of e = MalformedResponseError.
Proof.
  apply (missing_id_fails text_of_value partial_net "CRISPR" 2 []
           ["111"; "333"] crispr_summaries).
  - reflexivity.
  - reflexivity.
  - exists "333". split; [right; left; reflexivity |].
    intros article H. discriminate H.
Defined.

(** The same run, evaluated: the exception is the [KeyError] of the
    absent identifier. *)
Example missing_id_run :
  fst (_fetch_pubmed_data text_of_value partial_net "CRISPR" 2 []) =
  Raise (KeyError (JStr "333")).
Proof. reflexivity. Qed.

(** C7 (counterexample). [max_results] is 1 and the locator answers with
    two identifiers: two Records are returned. *)
Lemma record_count_counterexample :
  1 <= 1 <= 50 /\
  locator_idlist crispr_net "CRISPR" 1 = Return crispr_ids /\
  fst (_fetch_pubmed_data text_of_value crispr_net "CRISPR" 1 []) =
    Return crispr_records /\
  ~ (Z.of_nat (List.length crispr_records) <= 1).
Proof.
  repeat split; try reflexivity; try lia.
  cbn. lia.
Qed.

(** C7 (witness): the scenario of the specification. *)
Lemma retmax_and_record_count_witness :
  locator_idlist crispr_net "CRISPR" 2 = Return crispr_ids /\
  fst (_fetch_pubmed_data text_of_value crispr_net "CRISPR" 2 []) =
    Return crispr_records /\
  List.length crispr_records = 2%nat /\
  Z.of_nat (List.length crispr_records) <= 2.
Proof.
  assert (Hloc : locator_idlist crispr_net "CRISPR" 2 = Return crispr_ids)
    by reflexivity.
  assert (Hfetch : fst (_fetch_pubmed_data text_of_value crispr_net "CRISPR" 2 [])
                   = Return crispr_records) by reflexivity.
  destruct (proj2 (retmax_and_record_count text_of_value crispr_net "CRISPR" 2 [])
              [JStr "111"; JStr "222"] crispr_records Hloc Hfetch)
    as [Hlen Hbound].
  split; [exact Hloc | split; [exact Hfetch | split; [exact Hlen |]]].
  apply Hbound. cbn. lia.
Defined.

(** C8 (counterexample). No entry of the identifier list is tagged
    ["doi"], yet the doi is not the empty string: the extraction raises. *)
Lemma doi_untagged_counterexample :
  dict_get [("title", JStr "T");
            ("articleids", JArr [JObj [("value", JStr "x")]])]
    "articleids" (JArr []) = JArr [JObj [("value", JStr "x")]] /\
  find is_doi_entry [JObj [("value", JStr "x")]] = None /\
  doi_of untagged_article = Raise (KeyError (JStr "idtype")) /\
  doi_of untagged_article <> Return (JStr "").
Proof.
  repeat split; try reflexivity.
  intros H. discriminate H.
Qed.

(** C8 (witness): the first record of the scenario. *)
Lemma doi_is_first_doi_entry_witness :
  doi_of (JObj [("title", JStr "Gene Editing Advances");
                ("articleids",
                 JArr [JObj [("idtype", JStr "pmid"); ("value", JStr "111")];
                       JObj [("idtype", JStr "doi"); ("value", JStr "10.1/x")];
                       JObj [("idtype", JStr "doi"); ("value", JStr "10.2/y")]])])
  = Return (JStr "10.1/x").
Proof.
  apply (proj2 (doi_is_first_doi_entry
                  [("title", JStr "Gene Editing Advances");
                   ("articleids",
                    JArr [JObj [("idtype", JStr "pmid"); ("value", JStr "111")];
                          JObj [("idtype", JStr "doi"); ("value", JStr "10.1/x")];
                          JObj [("idtype", JStr "doi"); ("value", JStr "10.2/y")]])]
                  _ eq_refl)
          [JObj [("idtype", JStr "pmid"); ("value", JStr "111")]]
          [("idtype", JStr "doi"); ("value", JStr "10.1/x")]
          [JObj [("idtype", JStr "doi"); ("value", JStr "10.2/y")]]
          (JStr "10.1/x"));
    reflexivity.
Defined.

(** C9 (witness): the report of the scenario. *)
Lemma format_results_layout_witness :
  forallb str_valued crispr_records = true /\
  _format_results text_of_value "CRISPR" crispr_records =
    Return (report "CRISPR" crispr_records).
Proof.
  split; [reflexivity |].
  exact (proj1 (format_results_layout text_of_value "CRISPR" crispr_records
                  eq_refl)).
Defined.

(** C10 (counterexample). The second identifier entry lacks the key
    ["idtype"] and no earlier entry is tagged ["doi"], yet the extraction
    raises no [KeyError]: the first entry is a bare string, and its
    subscription raises [TypeError].  The search is an error all the
    same. *)
Lemma untagged_after_stray_counterexample :
  lookup "articleids"
    [ ("title", JStr "T");
      ("articleids", JArr [JStr "x"; JObj [("value", JStr "y")]]) ] =
    Some (JArr ([JStr "x"] ++ JObj [("value", JStr "y")] :: [])) /\
  lookup "idtype" [("value", JStr "y")] = None /\
  forallb (fun id_obj => negb (is_doi_entry id_obj)) [JStr "x"] = true /\
  doi_of stray_article =
    Raise (TypeError (BadIndex (JStr "x") (JStr "idtype"))) /\
  (forall key, doi_of stray_article <> Raise (KeyError key)) /\
  fst (search_pubmed text_of_exn text_of_value stray_net "CRISPR" 1 []) =
    Return "Error in PubMed search: TypeError".
Proof.
  repeat split; try reflexivity.
  intros key H. discriminate H.
Qed.

(** C10 (witness): an entry tagged ["pmid"], then one without a type tag,
    then one tagged ["doi"]. *)
Lemma untagged_articleid_is_an_error_witness :
  doi_of (JObj pmid_then_untagged) = Raise (KeyError (JStr "idtype")) /\
  exists e,
    fst (_fetch_pubmed_data text_of_value pmid_then_untagged_net
           "CRISPR" 1 []) = Raise e /\
    fst (search_pubmed text_of_exn text_of_value pmid_then_untagged_net
           "CRISPR" 1 []) =
      Return ("Error in PubMed search: " ++ text_of_exn e).
Proof.
  destruct (untagged_articleid_is_an_error text_of_exn text_of_value
              pmid_then_untagged_net "CRISPR" 1 [] ["1"]
              (JObj [("1", JObj pmid_then_untagged)]) "1" pmid_then_untagged
              [JObj [("idtype", JStr "pmid"); ("value", JStr "1")]]
              (JObj [("value", JStr "x")])
              [JObj [("idtype", JStr "doi"); ("value", JStr "10.1/x")]]
              eq_refl eq_refl (or_introl eq_refl) eq_refl eq_refl eq_refl
              eq_refl)
    as [(e1 & Hdoi & _ & Hkey) Hrun].
  split; [| exact Hrun].
  rewrite Hdoi, (Hkey eq_refl). reflexivity.
Defined.

(** * Further properties of the three functions *)

Section Further.

Variable exc_str : exn -> string.
Variable render : json -> string.
Variable net : network.

(** ** Failures of the two requests *)

(** An exception of the helper becomes the error message, with the
    requests issued so far. *)
Lemma search_pubmed_of_raise (query : string) (max_results : Z)
    (t t' : trace) (e : exn) :
  _fetch_pubmed_data render net query max_results t = (Raise e, t') ->
  search_pubmed exc_str render net query max_results t =
  (Return ("Error in PubMed search: " ++ exc_str e), t').
Proof.
  intros H. unfold search_pubmed, search_pubmed_try, try_except, bind.
  rewrite H. reflexivity.
Qed.

Lemma fetch_of_locator_raise (query : string) (max_results : Z)
    (t : trace) (e : exn) :
  locator_idlist net query max_results = Raise e ->
  _fetch_pubmed_data render net query max_results t =
  (Raise e, (t ++ [locator_request query max_results])%list).
Proof. intros H. rewrite fetch_run, H. reflexivity. Qed.

(** X1. When the locator request fails in transport, the helper raises
    that failure after this one request, and [search_pubmed] returns the
    error message with its text: the summarizer is not asked. *)
Theorem locator_unreachable (query : string) (max_results : Z) (t : trace)
    (text : string) :
  net (locator_request query max_results) = Failed text ->
  _fetch_pubmed_data render net query max_results t =
    (Raise (ConnectionError text),
     (t ++ [locator_request query max_results])%list) /\
  search_pubmed exc_str render net query max_results t =
    (Return ("Error in PubMed search: " ++ exc_str (ConnectionError text)),
     (t ++ [locator_request query max_results])%list).
Proof.
  intros Hnet.
  assert (Hfetch : _fetch_pubmed_data render net query max_results t =
            (Raise (ConnectionError text),
             (t ++ [locator_request query max_results])%list)).
  { apply fetch_of_locator_raise. unfold locator_idlist, decoded.
    rewrite Hnet. reflexivity. }
  split; [exact Hfetch | exact (search_pubmed_of_raise _ _ _ _ _ Hfetch)].
Qed.

(** X2. When the locator answers with a status from 400 to 599, the
    helper raises [HTTPError] with that status whatever the body is, even
    a body that lists identifiers; the summarizer is not asked. *)
Theorem locator_error_status (query : string) (max_results : Z) (t : trace)
    (r : response) :
  net (locator_request query max_results) = Responded r ->
  400 <= status_code r <= 599 ->
  _fetch_pubmed_data render net query max_results t =
    (Raise (HTTPError (status_code r)),
     (t ++ [locator_request query max_results])%list) /\
  search_pubmed exc_str render net query max_results t =
    (Return ("Error in PubMed search: " ++ exc_str (HTTPError (status_code r))),
     (t ++ [locator_request query max_results])%list).
Proof.
  intros Hnet Hstatus.
  assert (Hfetch : _fetch_pubmed_data render net query max_results t =
            (Raise (HTTPError (status_code r)),
             (t ++ [locator_request query max_results])%list)).
  { apply fetch_of_locator_raise. unfold locator_idlist, decoded.
    rewrite Hnet. unfold raise_for_status.
    replace (400 <=? status_code r) with true by (symmetry; apply Z.leb_le; lia).
    replace (status_code r <? 600) with true by (symmetry; apply Z.ltb_lt; lia).
    reflexivity. }
  split; [exact Hfetch | exact (search_pubmed_of_raise _ _ _ _ _ Hfetch)].
Qed.

(** X3. When the locator's body is an object without the key
    ["esearchresult"], or with it but without ["idlist"] inside, the helper
    raises [KeyError] on the missing key after the locator request alone. *)
Theorem locator_body_without_idlist (query : string) (max_results : Z)
    (t : trace) (fields : pydict) :
  decoded net (locator_request query max_results) = Return (JObj fields) ->
  (lookup "esearchresult" fields = None ->
   _fetch_pubmed_data render net query max_results t =
     (Raise (KeyError (JStr "esearchresult")),
      (t ++ [locator_request query max_results])%list)) /\
  (forall inner,
     lookup "esearchresult" fields = Some (JObj inner) ->
     lookup "idlist" inner = None ->
     _fetch_pubmed_data render net query max_results t =
       (Raise (KeyError (JStr "idlist")),
        (t ++ [locator_request query max_results])%list)).
Proof.
  intros Hbody. split.
  - intros Hkey. apply fetch_of_locator_raise. unfold locator_idlist.
    rewrite Hbody. cbn [obind py_getitem]. rewrite Hkey. reflexivity.
  - intros inner Hkey Hids. apply fetch_of_locator_raise.
    unfold locator_idlist. rewrite Hbody. cbn [obind py_getitem].
    rewrite Hkey. cbn [obind py_getitem]. rewrite Hids. reflexivity.
Qed.

(** X4. Whatever false value the locator gives as its identifier list
    (an empty list, [null], an empty string, zero, an empty object), the
    helper returns the empty list and [search_pubmed] the no-results
    message, after the locator request alone: such a value is not treated
    as a malformed response. *)
Theorem false_idlist_is_no_results (query : string) (max_results : Z)
    (t : trace) (article_ids : json) :
  locator_idlist net query max_results = Return article_ids ->
  py_truthy article_ids = false ->
  _fetch_pubmed_data render net query max_results t =
    (Return [], (t ++ [locator_request query max_results])%list) /\
  search_pubmed exc_str render net query max_results t =
    (Return ("No PubMed results found for query: '" ++ query ++ "'."),
     (t ++ [locator_request query max_results])%list).
Proof.
  intros Hloc Hfalse.
  assert (Hfetch : _fetch_pubmed_data render net query max_results t =
            (Return [], (t ++ [locator_request query max_results])%list)).
  { rewrite fetch_run, Hloc. cbv zeta. rewrite Hfalse. reflexivity. }
  split; [exact Hfetch |].
  unfold search_pubmed, search_pubmed_try, try_except, bind.
  rewrite Hfetch. reflexivity.
Qed.

(** ** The identifier list and the batch request *)

Lemma str_items_not_str (pre : list string) (v : json) (post : list json) :
  is_str v = false ->
  forall pos,
    str_items pos (map JStr pre ++ v :: post) =
    Raise (TypeError (JoinItem (pos + List.length pre) v)).
Proof.
  intros Hv. induction pre as [| id pre IH]; intros pos; cbn [map app str_items].
  - rewrite Nat.add_0_r. destruct v; try reflexivity. discriminate Hv.
  - rewrite IH. cbn [obind List.length].
    rewrite Nat.add_succ_r. reflexivity.
Qed.

(** X5. When the locator's identifier list holds an item that is not a
    string (a number, say), [",".join] raises [TypeError] at the position
    of the first such item: the helper raises before the summarizer is
    asked, and [search_pubmed] returns the error message. *)
Theorem non_string_identifier (query : string) (max_results : Z) (t : trace)
    (pre : list string) (v : json) (post : list json) :
  locator_idlist net query max_results =
    Return (JArr (map JStr pre ++ v :: post)) ->
  is_str v = false ->
  _fetch_pubmed_data render net query max_results t =
    (Raise (TypeError (JoinItem (List.length pre) v)),
     (t ++ [locator_request query max_results])%list) /\
  search_pubmed exc_str render net query max_results t =
    (Return ("Error in PubMed search: "
               ++ exc_str (TypeError (JoinItem (List.length pre) v))),
     (t ++ [locator_request query max_results])%list).
Proof.
  intros Hloc Hv.
  assert (Hfetch : _fetch_pubmed_data render net query max_results t =
            (Raise (TypeError (JoinItem (List.length pre) v)),
             (t ++ [locator_request query max_results])%list)).
  { rewrite fetch_run, Hloc. cbv zeta.
    replace (py_truthy (JArr (map JStr pre ++ v :: post))) with true
      by (destruct pre; reflexivity).
    unfold py_join, join_items. cbn [py_iter obind].
    rewrite (str_items_not_str pre v post Hv 0). reflexivity. }
  split; [exact Hfetch | exact (search_pubmed_of_raise _ _ _ _ _ Hfetch)].
Qed.

(** X6. When the locator gives a non-empty list of identifiers, exactly
    two requests are issued, whatever the summarizer answers and whatever
    its records hold: the locator request, then one summarizer request
    whose [id] parameter is the identifiers joined by commas in their
    order. *)
Theorem one_batch_request (query : string) (max_results : Z) (t : trace)
    (ids : list string) :
  locator_idlist net query max_results = Return (JArr (map JStr ids)) ->
  ids <> [] ->
  snd (search_pubmed exc_str render net query max_results t) =
  (t ++ [locator_request query max_results;
         mkRequest (base_url ++ "/esummary.fcgi")
           [("db", PStr "pubmed"); ("id", PStr (String.concat "," ids));
            ("retmode", PStr "json")]])%list.
Proof.
  intros Hloc Hne. rewrite search_pubmed_trace, fetch_run, Hloc. cbv zeta.
  destruct ids as [| id ids]; [congruence |].
  change (py_truthy (JArr (map JStr (id :: ids)))) with true. cbv iota.
  rewrite py_join_strings.
  destruct (summarizer_result net (String.concat "," (id :: ids)));
    cbn [snd]; rewrite <- app_assoc; reflexivity.
Qed.

(** X7. No run of [search_pubmed] issues more than two requests: the
    locator request alone, or the locator request followed by one
    summarizer request. *)
Theorem at_most_two_requests (query : string) (max_results : Z) (t : trace) :
  snd (search_pubmed exc_str render net query max_results t) =
    (t ++ [locator_request query max_results])%list \/
  exists joined,
    snd (search_pubmed exc_str render net query max_results t) =
    (t ++ [locator_request query max_results;
           summarizer_request joined])%list.
Proof.
  rewrite search_pubmed_trace, fetch_run. cbv zeta.
  destruct (locator_idlist net query max_results) as [article_ids | e];
    [| left; reflexivity].
  destruct (py_truthy article_ids); [| left; reflexivity].
  destruct (py_join "," article_ids) as [joined | e]; [| left; reflexivity].
  right. exists joined.
  destruct (summarizer_result net joined); cbn [snd];
    rewrite <- app_assoc; reflexivity.
Qed.

(** X8. Once the locator has given identifiers, a transport failure of
    the summarizer request, or a summarizer body that is an object
    without the key ["result"], makes the helper raise after both
    requests: no record is returned. *)
Theorem summarizer_failure (query : string) (max_results : Z) (t : trace)
    (ids : list string) :
  locator_idlist net query max_results = Return (JArr (map JStr ids)) ->
  ids <> [] ->
  (forall text,
     net (summarizer_request (String.concat "," ids)) = Failed text ->
     _fetch_pubmed_data render net query max_results t =
       (Raise (ConnectionError text),
        (t ++ [locator_request query max_results;
               summarizer_request (String.concat "," ids)])%list)) /\
  (forall fields,
     decoded net (summarizer_request (String.concat "," ids)) =
       Return (JObj fields) ->
     lookup "result" fields = None ->
     _fetch_pubmed_data render net query max_results t =
       (Raise (KeyError (JStr "result")),
        (t ++ [locator_request query max_results;
               summarizer_request (String.concat "," ids)])%list)).
Proof.
  intros Hloc Hne.
  assert (Hrun : forall e,
            summarizer_result net (String.concat "," ids) = Raise e ->
            _fetch_pubmed_data render net query max_results t =
              (Raise e,
               (t ++ [locator_request query max_results;
                      summarizer_request (String.concat "," ids)])%list)).
  { intros e Hsum. rewrite fetch_run, Hloc. cbv zeta.
    destruct ids as [| id ids]; [congruence |].
    change (py_truthy (JArr (map JStr (id :: ids)))) with true. cbv iota.
    rewrite py_join_strings, Hsum, <- app_assoc. reflexivity. }
  split.
  - intros text Hnet. apply Hrun. unfold summarizer_result, decoded.
    rewrite Hnet. reflexivity.
  - intros fields Hbody Hkey. apply Hrun. unfold summarizer_result.
    rewrite Hbody. cbn [obind py_getitem]. rewrite Hkey. reflexivity.
Qed.

(** ** The fields of a record *)

Lemma author_names_filter (authors : list json) :
  forallb author_ok authors = true ->
  author_names authors =
  Return (map JStr (filter nonempty (map author_name authors))).
Proof.
  induction authors as [| author rest IH]; intros Hok; [reflexivity |].
  cbn [forallb] in Hok. apply andb_prop in Hok as [Ha Hrest].
  destruct author as [| | | | | | f]; try discriminate.
  cbn [author_names py_contains py_getitem obind map filter author_name].
  cbn [author_ok] in Ha. unfold text_field.
  destruct (lookup "name" f) as [name |]; cbn [obind].
  - destruct (py_truthy name) eqn:Htruthy; cbn [obind].
    + destruct name; try discriminate.
      rewrite py_truthy_str in Htruthy. rewrite Htruthy, (IH Hrest).
      reflexivity.
    + destruct name; try (cbn [nonempty String.eqb negb]; exact (IH Hrest)).
      rewrite py_truthy_str in Htruthy. rewrite Htruthy. exact (IH Hrest).
  - exact (IH Hrest).
Qed.

(** X9. The [authors] field of a record: the empty string when the
    record has no ["authors"] key; otherwise, for a list of author objects
    (each with a string name, no name or a false one), the non-empty names
    in their order joined by [", "], the entries without a name or with
    an empty one being left out. *)
Theorem authors_joined (d : pydict) :
  (lookup "authors" d = None -> authors_of (JObj d) = Return "") /\
  (forall l,
     lookup "authors" d = Some (JArr l) ->
     forallb author_ok l = true ->
     authors_of (JObj d) =
     Return (String.concat ", " (filter nonempty (map author_name l)))).
Proof.
  unfold authors_of. cbn [py_contains py_get obind]. unfold dict_get. split.
  - intros ->. reflexivity.
  - intros l -> Hok. cbn [py_iter obind].
    rewrite (author_names_filter l Hok). cbn [obind].
    unfold join_items. rewrite str_items_strings. reflexivity.
Qed.

(** X10. A record is returned for an identifier only when its entry is
    an object with a title, and then it has exactly the six keys [title],
    [authors], [pubdate], [journal], [doi] and [url] in this order: the
    title as it is, the date and the journal as they are or the empty
    string when absent, and the URL of the article page of the
    identifier. *)
Theorem returned_record_shape (summaries : json) (id : string) (r : pydict) :
  record_of render summaries (JStr id) = Return r ->
  exists d title authors doi,
    py_getitem summaries (JStr id) = Return (JObj d) /\
    lookup "title" d = Some title /\
    authors_of (JObj d) = Return authors /\
    doi_of (JObj d) = Return doi /\
    r = [ ("title", title);
          ("authors", JStr authors);
          ("pubdate", dict_get d "pubdate" (JStr ""));
          ("journal", dict_get d "fulljournalname" (JStr ""));
          ("doi", doi);
          ("url", JStr (article_url id)) ].
Proof.
  unfold record_of. intros H.
  destruct (py_getitem summaries (JStr id)) as [article | e];
    cbn [obind] in H; [| discriminate].
  destruct article as [| | | | | | d]; try discriminate H.
  cbn [py_getitem] in H.
  destruct (lookup "title" d) as [title |] eqn:Htitle;
    cbn [obind] in H; [| discriminate].
  destruct (authors_of (JObj d)) as [authors | e] eqn:Hauthors;
    cbn [obind py_get] in H; [| discriminate].
  destruct (doi_of (JObj d)) as [doi | e] eqn:Hdoi;
    cbn [obind] in H; [| discriminate].
  injection H as <-.
  exists d, title, authors, doi. repeat split; assumption.
Qed.

(** ** The formatter on values that are not strings *)

Lemma str_items_raises (l : list json) :
  forall pos e,
    str_items pos l = Raise e -> exists pos' v, e = TypeError (JoinItem pos' v).
Proof.
  induction l as [| v l IH]; intros pos e H; cbn [str_items] in H;
    [discriminate |].
  destruct v; try (injection H as <-; eexists _, _; reflexivity).
  destruct (str_items (S pos) l) as [ss | e'] eqn:Hrest; cbn [obind] in H;
    [discriminate |].
  injection H as <-. exact (IH _ _ Hrest).
Qed.

Lemma str_items_non_str (l : list json) (v : json) :
  In v l -> is_str v = false ->
  forall pos, exists pos' v',
    str_items pos l = Raise (TypeError (JoinItem pos' v')).
Proof.
  intros Hin Hv. induction l as [| x l IH]; intros pos; [destruct Hin |].
  cbn [str_items].
  destruct x; try (eexists _, _; reflexivity).
  destruct Hin as [<- | Hin]; [discriminate Hv |].
  destruct (IH Hin (S pos)) as (pos' & v' & ->).
  eexists _, _. reflexivity.
Qed.

(** The case analysis on the four tested fields of a record. *)
Ltac tested_field k r :=
  let v := fresh "v" in
  destruct (lookup k r) as [v |]; [destruct (py_truthy v) |].

(** The only exception of a turn of the formatter is the [TypeError] of
    the join of journal and date. *)
Lemma format_article_raises (i : nat) (r : pydict) (markdown : string)
    (e : exn) :
  format_article render i r markdown = Raise e ->
  exists pos v, e = TypeError (JoinItem pos v).
Proof.
  unfold format_article, dict_get, join_items. cbn [py_getitem]. cbv zeta.
  intros H.
  tested_field "authors" r; tested_field "journal" r;
    tested_field "pubdate" r; tested_field "doi" r;
    cbn [obind app py_truthy] in H; try discriminate H;
    match type of H with
    | context [str_items 0 ?l] =>
        destruct (str_items 0 l) as [ss | e'] eqn:Hitems;
        cbn [obind] in H;
        [discriminate H
        | injection H as <-; exact (str_items_raises _ _ _ Hitems)]
    end.
Qed.

Lemma format_article_non_string (i : nat) (r : pydict) (markdown : string)
    (v : json) :
  lookup "journal" r = Some v \/ lookup "pubdate" r = Some v ->
  py_truthy v = true ->
  is_str v = false ->
  exists pos v',
    format_article render i r markdown = Raise (TypeError (JoinItem pos v')).
Proof.
  unfold format_article, dict_get, join_items. cbn [py_getitem]. cbv zeta.
  intros [Hk | Hk] Htruthy Hstr; rewrite Hk, Htruthy;
    [tested_field "authors" r; tested_field "pubdate" r
    |tested_field "authors" r; tested_field "journal" r];
    tested_field "doi" r; cbn [obind app py_truthy];
    match goal with
    | |- context [str_items 0 ?l] =>
        destruct (str_items_non_str l v ltac:(cbn; auto) Hstr 0)
          as (pos & v' & ->)
    end;
    cbn [obind]; eexists _, _; reflexivity.
Qed.

(** X11. When some record has a journal or a date that is true but not a
    string (a number, say), [_format_results] raises the [TypeError] of
    [" - ".join]: no report is produced, whatever the other records are. *)
Theorem non_string_journal_breaks_report (query : string) (rs : list pydict)
    (r : pydict) (v : json) :
  In r rs ->
  lookup "journal" r = Some v \/ lookup "pubdate" r = Some v ->
  py_truthy v = true ->
  is_str v = false ->
  exists pos v',
    _format_results render query rs = Raise (TypeError (JoinItem pos v')).
Proof.
  intros Hin Hk Htruthy Hstr. unfold _format_results. cbv zeta.
  generalize 0%nat as i.
  generalize ("# PubMed Search Results" ++ nl ++ nl ++ "**Query:** " ++ query
                ++ nl ++ nl ++ "**Found:** " ++ str_of_nat (List.length rs)
                ++ " results" ++ nl ++ nl) as markdown.
  induction rs as [| a rs IH]; intros markdown i; [destruct Hin |].
  cbn [for_articles].
  destruct (format_article render i a markdown) as [markdown' | e] eqn:Ha.
  - cbn [obind]. destruct Hin as [-> | Hin].
    + destruct (format_article_non_string i r markdown v Hk Htruthy Hstr)
        as (pos & v' & Hr). congruence.
    + exact (IH Hin markdown' (S i)).
  - cbn [obind]. destruct (format_article_raises i a markdown e Ha)
      as (pos & v' & ->).
    eexists _, _. reflexivity.
Qed.

(** ** A whole run on textual records *)

Lemma next_doi_textual (articleids : list json) :
  forallb textual_articleid articleids = true ->
  exists s, next_doi articleids = Return (JStr s).
Proof.
  induction articleids as [| id_obj rest IH]; intros Hok.
  - exists "". reflexivity.
  - cbn [forallb] in Hok. apply andb_prop in Hok as [Hid Hrest].
    destruct id_obj as [| | | | | | f]; try discriminate.
    cbn [textual_articleid] in Hid. apply andb_prop in Hid as [Htype Hvalue].
    unfold has_key in Htype. cbn [next_doi py_getitem].
    destruct (lookup "idtype" f) as [idtype |]; [| discriminate].
    cbn [obind].
    destruct (py_eq_str idtype "doi"); [| exact (IH Hrest)].
    destruct (lookup "value" f) as [value |]; [| discriminate].
    destruct value; try discriminate. eexists. reflexivity.
Qed.

(** A textual record yields a Record all of whose fields are strings. *)
Lemma record_of_textual (summaries article : json) (id : string) :
  py_getitem summaries (JStr id) = Return article ->
  textual_summary article = true ->
  exists r,
    record_of render summaries (JStr id) = Return r /\
    str_valued r = true.
Proof.
  intros Hentry Hok. unfold record_of. rewrite Hentry. cbn [obind].
  destruct article as [| | | | | | d]; try discriminate.
  cbn [textual_summary] in Hok.
  apply andb_prop in Hok as [Hok Hids].
  apply andb_prop in Hok as [Hok Hjournal].
  apply andb_prop in Hok as [Hok Hdate].
  apply andb_prop in Hok as [Htitle Hau].
  cbn [py_getitem].
  destruct (lookup "title" d) as [title |]; [| discriminate].
  destruct title; try discriminate. cbn [obind].
  assert (Hauthors : exists a, authors_of (JObj d) = Return a).
  { unfold authors_of. cbn [py_contains py_get obind]. unfold dict_get.
    destruct (lookup "authors" d) as [authors |]; [| exists ""; reflexivity].
    destruct authors as [| | | | | l |]; try discriminate.
    cbn [py_iter obind]. rewrite (author_names_filter l Hau).
    cbn [obind]. unfold join_items. rewrite str_items_strings.
    eexists. reflexivity. }
  destruct Hauthors as (a & ->). cbn [obind py_get]. unfold dict_get.
  assert (Hdoi : exists doi, doi_of (JObj d) = Return (JStr doi)).
  { unfold doi_of. cbn [py_get obind]. unfold dict_get.
    destruct (lookup "articleids" d) as [articleids |];
      [| exists ""; reflexivity].
    destruct articleids as [| | | | | l |]; try discriminate.
    cbn [py_iter obind]. exact (next_doi_textual l Hids). }
  destruct Hdoi as (doi & ->). cbn [obind].
  unfold str_or_absent in Hdate, Hjournal.
  eexists. split; [reflexivity |].
  destruct (lookup "pubdate" d) as [[] |]; try discriminate;
    destruct (lookup "fulljournalname" d) as [[] |]; try discriminate;
    reflexivity.
Qed.

(** X12. When the locator gives a non-empty list of identifiers and the
    summarizer has a textual record for each (an object with a string
    title, well-formed authors, string or absent date and journal, and
    identifier entries with a type tag and a string value),
    [search_pubmed] returns the report of the Records extracted for the
    identifiers in their order, after exactly the two requests. *)
Theorem textual_run_reports (query : string) (max_results : Z) (t : trace)
    (ids : list string) (summaries : json) :
  locator_idlist net query max_results = Return (JArr (map JStr ids)) ->
  ids <> [] ->
  summarizer_result net (String.concat "," ids) = Return summaries ->
  (forall id, In id ids ->
     exists article,
       py_getitem summaries (JStr id) = Return article /\
       textual_summary article = true) ->
  exists records,
    Forall2 (fun id r => record_of render summaries (JStr id) = Return r)
      ids records /\
    search_pubmed exc_str render net query max_results t =
      (Return (report query records),
       (t ++ [locator_request query max_results;
              summarizer_request (String.concat "," ids)])%list).
Proof.
  intros Hloc Hne Hsum Hentries.
  assert (Hrecords : exists records,
            Forall2 (fun id r =>
                       record_of render summaries (JStr id) = Return r)
              ids records /\
            forallb str_valued records = true).
  { clear Hloc Hsum Hne. induction ids as [| id ids IH].
    - exists []. split; [constructor | reflexivity].
    - destruct (Hentries id (in_eq _ _)) as (article & Hentry & Hok).
      destruct (record_of_textual summaries article id Hentry Hok)
        as (r & Hr & Hstr).
      destruct IH as (records & Hall & Hstrs).
      { intros id' Hin. apply Hentries. right. exact Hin. }
      exists (r :: records). split; [constructor; assumption |].
      cbn [forallb]. rewrite Hstr, Hstrs. reflexivity. }
  destruct Hrecords as (records & Hall & Hstrs).
  exists records. split; [exact Hall |].
  assert (Hitems : Forall2 (fun item r =>
                              record_of render summaries item = Return r)
                     (map JStr ids) records).
  { clear - Hall. induction Hall; cbn [map]; constructor; assumption. }
  unfold search_pubmed, search_pubmed_try, try_except, bind, lift, ret.
  rewrite (fetch_with_ids render net query max_results t ids summaries
             Hloc Hne Hsum).
  rewrite (for_article_ids_returns render summaries _ records Hitems).
  cbn [app].
  destruct records as [| r records].
  - inversion Hall; subst. congruence.
  - assert (Hreport : _format_results render query (r :: records) =
                      Return (report query (r :: records))).
    { unfold _format_results, report. cbv zeta.
      rewrite (for_articles_sections render (r :: records) Hstrs),
        paragraphs_app.
      cbn [header_lines paragraphs]. rewrite !string_app_assoc.
      reflexivity. }
    rewrite Hreport. reflexivity.
Qed.

(** ** Where transport and status errors come from *)

Lemma decoded_remote (req : request) (e : exn) :
  decoded net req = Raise e ->
  error_kind_of e = RemoteError ->
  failed_with net req e.
Proof.
  unfold decoded, failed_with, raise_for_status, response_json.
  destruct (net req) as [text | r]; intros H Hkind.
  - injection H as <-. left. exists text. split; reflexivity.
  - destruct (400 <=? status_code r) eqn:Hlo;
      [destruct (status_code r <? 600) eqn:Hhi |]; cbn [andb obind] in H.
    + injection H as <-. right. exists r.
      apply Z.leb_le in Hlo. apply Z.ltb_lt in Hhi.
      repeat split; try reflexivity; lia.
    + destruct (body r); [discriminate H |].
      injection H as <-. discriminate Hkind.
    + destruct (body r); [discriminate H |].
      injection H as <-. discriminate Hkind.
Qed.

Lemma not_remote {A} (o : outcome A) (e : exn) :
  malformed_only o -> o = Raise e -> error_kind_of e = RemoteError -> False.
Proof. intros Ho H Hkind. rewrite (Ho e H) in Hkind. discriminate Hkind. Qed.

Lemma for_article_ids_malformed (summaries : json) (items : list json) :
  forall results,
    malformed_only (for_article_ids render summaries items results).
Proof.
  induction items as [| item items IH]; intros results; cbn [for_article_ids].
  - apply malformed_only_return.
  - apply malformed_only_bind; [apply record_of_malformed |].
    intros r. apply IH.
Qed.


End Further.

(** * The further properties on the fixtures *)

(** X1 (witness): both endpoints unreachable. *)
Lemma locator_unreachable_witness :
  _fetch_pubmed_data text_of_value down_net "CRISPR" 5 [] =
    (Raise (ConnectionError "boom"), [locator_request "CRISPR" 5]) /\
  search_pubmed text_of_exn text_of_value down_net "CRISPR" 5 [] =
    (Return "Error in PubMed search: boom", [locator_request "CRISPR" 5]).
Proof.
  exact (locator_unreachable text_of_exn text_of_value down_net "CRISPR" 5 []
           "boom" eq_refl).
Defined.

(** X2 (witness): status 403 with a body that lists identifiers. *)
Lemma locator_error_status_witness :
  fst (search_pubmed text_of_exn text_of_value
         (serve (Responded (mkResponse 403 (Some (locator_body crispr_ids))))
                (ok_json (summarizer_body crispr_summaries)))
         "CRISPR" 5 []) =
  Return "Error in PubMed search: HTTPError".
Proof.
  pose proof (proj2 (locator_error_status text_of_exn text_of_value
                 (serve (Responded
                           (mkResponse 403 (Some (locator_body crispr_ids))))
                        (ok_json (summarizer_body crispr_summaries)))
                 "CRISPR" 5 []
                 (mkResponse 403 (Some (locator_body crispr_ids)))
                 eq_refl ltac:(cbn; lia))) as H.
  rewrite H. reflexivity.
Defined.

(** X3 (witness): the locator's body is the empty object. *)
Lemma locator_body_without_idlist_witness :
  _fetch_pubmed_data text_of_value
    (serve (ok_json (JObj [])) (Failed "boom")) "CRISPR" 5 [] =
  (Raise (KeyError (JStr "esearchresult")), [locator_request "CRISPR" 5]).
Proof.
  exact (proj1 (locator_body_without_idlist text_of_value
                  (serve (ok_json (JObj [])) (Failed "boom")) "CRISPR" 5 []
                  [] eq_refl) eq_refl).
Defined.

(** X4 (witness): the identifier list is [null]. *)
Lemma false_idlist_is_no_results_witness :
  search_pubmed text_of_exn text_of_value
    (serve (ok_json (locator_body JNull)) (Failed "boom")) "CRISPR" 5 [] =
  (Return "No PubMed results found for query: 'CRISPR'.",
   [locator_request "CRISPR" 5]).
Proof.
  exact (proj2 (false_idlist_is_no_results text_of_exn text_of_value
                  (serve (ok_json (locator_body JNull)) (Failed "boom"))
                  "CRISPR" 5 [] JNull eq_refl eq_refl)).
Defined.

(** X5 (witness): the second identifier is a number. *)
Lemma non_string_identifier_witness :
  _fetch_pubmed_data text_of_value
    (serve (ok_json (locator_body (JArr [JStr "1"; JInt 2]))) (Failed "boom"))
    "CRISPR" 5 [] =
  (Raise (TypeError (JoinItem 1 (JInt 2))), [locator_request "CRISPR" 5]).
Proof.
  exact (proj1 (non_string_identifier text_of_exn text_of_value
                  (serve (ok_json (locator_body (JArr [JStr "1"; JInt 2])))
                         (Failed "boom"))
                  "CRISPR" 5 [] ["1"] (JInt 2) [] eq_refl eq_refl)).
Defined.

(** X6 (witness): two identifiers, one of them unknown to the summarizer. *)
Lemma one_batch_request_witness :
  snd (search_pubmed text_of_exn text_of_value partial_net "CRISPR" 2 []) =
  [ locator_request "CRISPR" 2;
    mkRequest "https://eutils.ncbi.nlm.nih.gov/entrez/eutils/esummary.fcgi"
      [("db", PStr "pubmed"); ("id", PStr "111,333"); ("retmode", PStr "json")] ].
Proof.
  apply (one_batch_request text_of_exn text_of_value partial_net "CRISPR" 2 []
           ["111"; "333"]).
  - reflexivity.
  - discriminate.
Defined.

(** X8 (witness): the summarizer is unreachable. *)
Lemma summarizer_failure_witness :
  _fetch_pubmed_data text_of_value
    (serve (ok_json (locator_body crispr_ids)) (Failed "boom")) "CRISPR" 2 [] =
  (Raise (ConnectionError "boom"),
   [locator_request "CRISPR" 2; summarizer_request "111,222"]).
Proof.
  refine (proj1 (summarizer_failure text_of_value
                   (serve (ok_json (locator_body crispr_ids)) (Failed "boom"))
                   "CRISPR" 2 [] ["111"; "222"] eq_refl _) "boom" eq_refl).
  discriminate.
Defined.

(** X9 (witness): four author entries, two of them without a usable name. *)
Lemma authors_joined_witness :
  authors_of
    (JObj [("authors",
            JArr [ JObj [("name", JStr "A. Smith")];
                   JObj [("authtype", JStr "Author")];
                   JObj [("name", JStr "")];
                   JObj [("name", JStr "B. Jones")] ])]) =
  Return "A. Smith, B. Jones".
Proof.
  exact (proj2 (authors_joined
                  [("authors",
                    JArr [ JObj [("name", JStr "A. Smith")];
                           JObj [("authtype", JStr "Author")];
                           JObj [("name", JStr "")];
                           JObj [("name", JStr "B. Jones")] ])])
           _ eq_refl eq_refl).
Defined.

(** X10 (witness): a record with a title only. *)
Lemma returned_record_shape_witness :
  exists d title authors doi,
    py_getitem (JObj [("7", JObj [("title", JStr "T")])]) (JStr "7") =
      Return (JObj d) /\
    lookup "title" d = Some title /\
    authors_of (JObj d) = Return authors /\
    doi_of (JObj d) = Return doi /\
    [ ("title", JStr "T"); ("authors", JStr ""); ("pubdate", JStr "");
      ("journal", JStr ""); ("doi", JStr "");
      ("url", JStr "https://pubmed.ncbi.nlm.nih.gov/7/") ] =
    [ ("title", title);
      ("authors", JStr authors);
      ("pubdate", dict_get d "pubdate" (JStr ""));
      ("journal", dict_get d "fulljournalname" (JStr ""));
      ("doi", doi);
      ("url", JStr (article_url "7")) ].
Proof.
  exact (returned_record_shape text_of_value
           (JObj [("7", JObj [("title", JStr "T")])]) "7" _ eq_refl).
Defined.

(** X11 (witness): a Record whose journal is the number 5. *)
Lemma non_string_journal_breaks_report_witness :
  exists pos v',
    _format_results text_of_value "CRISPR"
      [[("title", JStr "T"); ("journal", JInt 5)]] =
    Raise (TypeError (JoinItem pos v')).
Proof.
  apply (non_string_journal_breaks_report text_of_value "CRISPR"
           [[("title", JStr "T"); ("journal", JInt 5)]]
           [("title", JStr "T"); ("journal", JInt 5)] (JInt 5)).
  - left. reflexivity.
  - left. reflexivity.
  - reflexivity.
  - reflexivity.
Defined.

(** The same through a whole run: a summarizer record whose journal is a
    number makes the search an error. *)
Example numeric_journal_run :
  fst (search_pubmed text_of_exn text_of_value numeric_journal_net
         "CRISPR" 1 []) =
  Return "Error in PubMed search: TypeError".
Proof. reflexivity. Qed.

(** X12 (witness): the scenario of the specification. *)
Lemma textual_run_reports_witness :
  exists records,
    Forall2 (fun id r =>
               record_of text_of_value crispr_summaries (JStr id) = Return r)
      ["111"; "222"] records /\
    search_pubmed text_of_exn text_of_value crispr_net "CRISPR" 2 [] =
      (Return (report "CRISPR" records),
       [locator_request "CRISPR" 2; summarizer_request "111,222"]).
Proof.
  apply (textual_run_reports text_of_exn text_of_value crispr_net "CRISPR" 2 []
           ["111"; "222"] crispr_summaries).
  - reflexivity.
  - discriminate.
  - reflexivity.
  - intros id [<- | [<- | []]]; eexists; split; reflexivity.
Defined.

